(** * ResumeReviewer: the resume-analysis backend and the job-context converter

    A shallow embedding of [backend/main.py] (the PDF text extractor, the
    prompt builder, the response normalizer and the [/analyze-resume]
    handler) and of [convert_jobs.py] (the skill-list heuristic), followed
    by the properties the specification states about them.

    Python values are modelled as follows.
    - A [str] is the list of its Unicode code points ([pystr]); [len] is the
      length of that list, which is what Python's [len], slicing, [strip]
      and the [re] module work on.
    - [bytes] is a list of bytes.
    - A raised exception is a value of [pyexn]; a computation that may raise
      and that calls the outside world (the upload stream, pypdf, the
      generative-model client, the json module) lives in the monad [M],
      which also records the outside calls in the order they are made.
    - The float comparison [ratio > 0.3] is computed with the IEEE-754
      binary64 operations of [SpecFloat]. *)

From Stdlib Require Import String Ascii.
From Stdlib Require Import List ZArith NArith Lia Bool.
From Stdlib Require Import Floats.SpecFloat DecimalString.
Import ListNotations.

Set Implicit Arguments.

(* ================================================================== *)
(** * Python strings *)
(* ================================================================== *)

Module Py.

(** A Python [str]: its code points, in order. *)
Definition pystr : Type := list N.

(** A literal written in ASCII. *)
Definition lit (s : string) : pystr := map N_of_ascii (list_ascii_of_string s).

(** The double quote, which a literal above cannot hold, and a quoted word. *)
Definition dq : pystr := [34%N].
Definition quoted (s : string) : pystr := dq ++ lit s ++ dq.

(** The line feed. *)
Definition LF : N := 10%N.
Definition nl : pystr := [LF].

(** [len(s)]. *)
Definition len (s : pystr) : Z := Z.of_nat (length s).

Definition in_range (lo hi c : N) : bool := (lo <=? c)%N && (c <=? hi)%N.

(** [c.isspace()], the characters [str.strip()] removes and [\s] matches in
    a [str] pattern: the Unicode white-space code points. *)
Definition isspace (c : N) : bool :=
  in_range 9 13 c || in_range 28 32 c || (c =? 133)%N || (c =? 160)%N
  || (c =? 5760)%N || in_range 8192 8202 c || (c =? 8232)%N || (c =? 8233)%N
  || (c =? 8239)%N || (c =? 8287)%N || (c =? 12288)%N.

(** The character class [[a-zA-Z0-9]]. *)
Definition is_alnum (c : N) : bool :=
  in_range 97 122 c || in_range 65 90 c || in_range 48 57 c.

Fixpoint lstrip (s : pystr) : pystr :=
  match s with
  | [] => []
  | c :: s' => if isspace c then lstrip s' else s
  end.

Definition rstrip (s : pystr) : pystr := rev (lstrip (rev s)).

(** [s.strip()]. *)
Definition strip (s : pystr) : pystr := rstrip (lstrip s).

(** [s.split(sep)] for a one-character separator: every occurrence of the
    separator ends a field, so [n] separators give [n + 1] fields. *)
Fixpoint split (sep : N) (s : pystr) : list pystr :=
  match s with
  | [] => [[]]
  | c :: s' =>
      if (c =? sep)%N then [] :: split sep s'
      else match split sep s' with
           | f :: fs => (c :: f) :: fs
           | [] => [[c]]
           end
  end.

(** [sep.join(l)]. *)
Fixpoint join (sep : pystr) (l : list pystr) : pystr :=
  match l with
  | [] => []
  | [x] => x
  | x :: l' => x ++ sep ++ join sep l'
  end.

(** [s.startswith(p)]. *)
Fixpoint startswith (s p : pystr) {struct p} : bool :=
  match p, s with
  | [], _ => true
  | _ :: _, [] => false
  | c :: p', d :: s' => (c =? d)%N && startswith s' p'
  end.

(** [s.endswith(p)]. *)
Definition endswith (s p : pystr) : bool := startswith (rev s) (rev p).

(** The slices [s[n:]] and [s[:-n]] for [n > 0]. *)
Definition slice_from (n : nat) (s : pystr) : pystr := skipn n s.
Definition slice_to_minus (n : nat) (s : pystr) : pystr :=
  firstn (length s - n) s.

(** [p in s]: [p] occurs in [s] as a contiguous run. *)
Fixpoint contains (s p : pystr) : bool :=
  startswith s p || match s with
                    | [] => false
                    | _ :: s' => contains s' p
                    end.

(** [len(re.findall(r'[a-zA-Z0-9]', s))]: the pattern matches one character,
    so the matches are the characters of the class. *)
Definition count_alnum (s : pystr) : Z := Z.of_nat (length (filter is_alnum s)).

(** ** Floats *)

(** [a / b] on integers that a binary64 float holds exactly (below [2^53],
    as every length of a string in memory is): both are converted and
    divided in binary64, rounding to nearest even. *)
Definition float_of_int (n : Z) : spec_float := binary_normalize 53 1024 n 0 false.
Definition truediv (a b : Z) : spec_float :=
  SFdiv 53 1024 (float_of_int a) (float_of_int b).

(** The literal [0.3]: the binary64 float nearest to 3/10, which is
    5404319552844595 * 2^-54. *)
Definition float_0_3 : spec_float := S754_finite false 5404319552844595 (-54).

(** [x > y] and [x <= y] on floats. *)
Definition float_gt (x y : spec_float) : bool := SFltb y x.
Definition float_le (x y : spec_float) : bool := SFleb x y.

End Py.

Import Py.

(* ================================================================== *)
(** * backend/main.py *)
(* ================================================================== *)

Module Main.

(** ** Exceptions and the outside world *)

(** What a [raise] carries.  Only the classes the handlers tell apart are
    kept apart; every other subclass of [Exception] is [Exception msg] with
    [msg] its [str()].  What is no subclass of [Exception] (an interrupt, a
    cancellation) passes every handler of this file and is left out. *)
Inductive pyexn : Type :=
| HTTPException (status_code : Z) (detail : pystr)
| JSONDecodeError (msg : pystr)
| Exception (msg : pystr).

Definition bytes : Type := list Byte.byte.

(** The calls that leave the process, as the handler makes them. *)
Inductive event : Type :=
| EvRead
| EvPdfReader (pdf_file : bytes)
| EvExtractText
| EvGenerateContent (model contents : pystr)
| EvJsonLoads (s : pystr).

(** A computation: the outside calls made so far, and a value or the
    exception that ended it. *)
Definition M (A : Type) : Type := (list event * (pyexn + A))%type.

Definition ret {A : Type} (a : A) : M A := ([], inr a).

Definition raise {A : Type} (e : pyexn) : M A := ([], inl e).

Definition bind {A B : Type} (m : M A) (k : A -> M B) : M B :=
  match m with
  | (t, inl e) => (t, inl e)
  | (t, inr a) => let (t', r) := k a in (t ++ t', r)
  end.

(** [try: m  except Exception as e: h e]. *)
Definition try_except {A : Type} (m : M A) (h : pyexn -> M A) : M A :=
  match m with
  | (t, inl e) => let (t', r) := h e in (t ++ t', r)
  | (t, inr a) => (t, inr a)
  end.

(** One outside call, with what it returned or raised. *)
Definition call {A : Type} (ev : event) (r : pyexn + A) : M A := ([ev], r).

Notation "x <- m ;; k" := (bind m (fun x => k))
  (at level 61, m at next level, right associativity).

Definition trace {A : Type} (m : M A) : list event := fst m.
Definition outcome {A : Type} (m : M A) : pyexn + A := snd m.

(** The status line the framework answers with: 200 with the returned
    value, the status of a raised [HTTPException], and 500 for any other
    exception that leaves the handler. *)
Definition http_status {A : Type} (r : pyexn + A) : Z :=
  match r with
  | inr _ => 200
  | inl (HTTPException status_code _) => status_code
  | inl _ => 500
  end.

(** ** The line filter of [extract_text_from_pdf] *)

(** The body of [for line in lines], on the list [cleaned_lines]. *)
Definition clean_step (cleaned_lines : list pystr) (line : pystr) : list pystr :=
  let clean_chars := count_alnum line in
  let total_chars := len (strip line) in
  if (total_chars >? 0)%Z then
    let ratio := truediv clean_chars total_chars in
    if float_gt ratio float_0_3 || (total_chars <? 5)%Z
    then cleaned_lines ++ [line]
    else cleaned_lines
  else cleaned_lines.

(** [cleaned_lines] after the loop over [lines]. *)
Definition clean_lines (lines : list pystr) : list pystr :=
  fold_left clean_step lines [].

(** What a page with the non-empty text [page_text] adds to [text]. *)
Definition page_contribution (page_text : pystr) : pystr :=
  join nl (clean_lines (split LF page_text)) ++ nl.

(** ** The prompt *)

(** The f-string of step 4, cut at its four fields: the text before
    [{general_context_str}], *)
Definition prompt_intro : pystr :=
  concat [
    nl;
    lit "    Analyze the following resume text against the provided Job Description. "; nl;
    lit "    "; nl;
    lit "    **Goal:** Provide a comprehensive, structured review similar to professional resume audit platforms."; nl;
    nl;
    lit "    **General Industry Job Context (JSON):**"; nl;
    lit "    "
  ].

(** between it and the company field, *)
Definition prompt_job_header : pystr :=
  concat [
    nl;
    nl;
    lit "    **Specific Job Description:**"; nl;
    lit "    Company: "
  ].

(** between the company field and [{job_description}], *)
Definition prompt_description_header : pystr :=
  concat [
    nl;
    lit "    Description:"; nl;
    lit "    "
  ].

(** between [{job_description}] and [{resume_text}], *)
Definition prompt_resume_header : pystr :=
  concat [
    nl;
    nl;
    lit "    **Resume Text for Analysis:**"; nl;
    lit "    "
  ].

(** and after [{resume_text}]. *)
Definition output_instructions : pystr :=
  concat [
    nl;
    nl;
    lit "    ---"; nl;
    nl;
    lit "    **Output Format:**"; nl;
    lit "    Return a **strictly valid JSON object** with the following structure:"; nl;
    lit "    {"; nl;
    lit "        "; quoted "match_score"; lit ": 85,"; nl;
    lit "        "; quoted "sub_scores"; lit ": {"; nl;
    lit "            "; quoted "structure"; lit ": {"; quoted "score"; lit ": 15, "; quoted "max"; lit ": 20},"; nl;
    lit "            "; quoted "content"; lit ": {"; quoted "score"; lit ": 45, "; quoted "max"; lit ": 60},"; nl;
    lit "            "; quoted "tailoring"; lit ": {"; quoted "level"; lit ": "; quoted "High"; lit ", "; quoted "feedback"; lit ": "; quoted "Well matched to keywords"; lit "}"; nl;
    lit "        },"; nl;
    lit "        "; quoted "checklist"; lit ": ["; nl;
    lit "            {"; nl;
    lit "                "; quoted "category"; lit ": "; quoted "Resume Format"; lit ","; nl;
    lit "                "; quoted "items"; lit ": ["; nl;
    lit "                    {"; quoted "name"; lit ": "; quoted "Length"; lit ", "; quoted "status"; lit ": "; quoted "pass"; lit ", "; quoted "score"; lit ": "; quoted "+10 pts"; lit ", "; quoted "detail"; lit ": "; quoted "1 page, perfect length."; lit "},"; nl;
    lit "                    {"; quoted "name"; lit ": "; quoted "Formatting"; lit ", "; quoted "status"; lit ": "; quoted "fail"; lit ", "; quoted "score"; lit ": "; quoted "-5 pts"; lit ", "; quoted "detail"; lit ": "; quoted "Inconsistent font sizes."; lit "}"; nl;
    lit "                ]"; nl;
    lit "            },"; nl;
    lit "            {"; nl;
    lit "                "; quoted "category"; lit ": "; quoted "Essential Sections"; lit ","; nl;
    lit "                "; quoted "items"; lit ": ["; nl;
    lit "                    {"; quoted "name"; lit ": "; quoted "Summary"; lit ", "; quoted "status"; lit ": "; quoted "warn"; lit ", "; quoted "score"; lit ": "; quoted "-5 pts"; lit ", "; quoted "detail"; lit ": "; quoted "Present but generic."; lit "},"; nl;
    lit "                    {"; quoted "name"; lit ": "; quoted "Experience"; lit ", "; quoted "status"; lit ": "; quoted "pass"; lit ", "; quoted "score"; lit ": "; quoted "+10 pts"; lit ", "; quoted "detail"; lit ": "; quoted "Good use of action verbs."; lit "}"; nl;
    lit "                ]"; nl;
    lit "            }"; nl;
    lit "        ],"; nl;
    lit "        "; quoted "annotated_resume"; lit ": "; quoted "The full text of the resume with the annotations described below..."; nl;
    lit "    }"; nl;
    nl;
    lit "    **Annotation Instructions (Use these EXACT markers in 'annotated_resume'):**"; nl;
    lit "    1.  **Improvements (Orange):** Wrap text that needs quantification or better wording in `<<<` and `>>>`."; nl;
    lit "    2.  **Removals (Red):** Wrap text that should be deleted in `~~~` and `~~~`."; nl;
    lit "    3.  **Additions (Green):** Insert new suggested text wrapped in `+++` and `+++`."; nl;
    nl;
    lit "    **Critique Guidelines:**"; nl;
    lit "    *   **Structure:** Check length, readability, and section organization."; nl;
    lit "    *   **Content:** Check for quantification, action verbs, and clarity."; nl;
    lit "    *   **Tailoring:** Check for JD keywords and specific skills."; nl;
    lit "    *   **Annotated Resume:** Rewrite the resume text. **Use Markdown for formatting:**"; nl;
    lit "        - Use `### ` for Section Headers (e.g. ### Experience)."; nl;
    lit "        - Use `**` for bolding key terms (e.g. **Candidate Name**)."; nl;
    lit "        - Use `- ` for bullet points."; nl;
    lit "        - **Crucial:** Keep the annotation markers (`<<<`, `~~~`, `+++`) as defined previously."; nl;
    nl;
    lit "    **Important:** Do not use markdown formatting for the JSON (no ```json). Just return the raw JSON string."; nl;
    lit "    "
  ].

(** The f-string; [company] is
    [company_name if company_name else "Not Specified"]. *)
Definition prompt_template
    (general_context_str company job_description resume_text : pystr) : pystr :=
  prompt_intro ++ general_context_str
  ++ prompt_job_header ++ company
  ++ prompt_description_header ++ job_description
  ++ prompt_resume_header ++ resume_text
  ++ output_instructions.

Definition company_or_placeholder (company_name : option pystr) : pystr :=
  match company_name with
  | Some (c :: s) => c :: s
  | _ => lit "Not Specified"
  end.

(** ** The response normalizer *)

Definition fence_json : pystr := lit "```json".
Definition fence : pystr := lit "```".

(** Lines 170-178: what is handed to [json.loads] for the model output
    [text]. *)
Definition clean_response (text : pystr) : pystr :=
  let response_text := strip text in
  let response_text :=
    if startswith response_text fence_json then slice_from 7 response_text
    else response_text in
  let response_text :=
    if startswith response_text fence then slice_from 3 response_text
    else response_text in
  let response_text :=
    if endswith response_text fence then slice_to_minus 3 response_text
    else response_text in
  strip response_text.

(** ** The handler and its helpers *)

(** The uploaded file as the handler sees it: the declared content type
    (absent when the part declares none) and what [await read()] gives. *)
Record UploadFile : Type := {
  content_type : option pystr;
  read : pyexn + bytes
}.

Definition str_eqb (a b : pystr) : bool :=
  if list_eq_dec N.eq_dec a b then true else false.

(** [resume_pdf.content_type != "application/pdf"]. *)
Definition not_pdf (resume_pdf : UploadFile) : bool :=
  match content_type resume_pdf with
  | Some t => negb (str_eqb t (lit "application/pdf"))
  | None => true
  end.

Definition MODEL : pystr := lit "gemini-2.5-flash".

Definition invalid_file_type : pystr :=
  lit "Invalid file type. Only PDF files (application/pdf) are supported. DOC/DOCX files are not supported.".

Definition invalid_json_format : pystr := lit "AI returned invalid JSON format.".

(** The outside world of one run of the service: the values the libraries
    and the provider return or raise.
    - pypdf: [PdfReader(io.BytesIO(pdf_file)).pages] and
      [page.extract_text()], which gives [None] or a string;
    - [str(e)] of an [HTTPException], which the web framework defines;
    - [JOBS_CONTEXT], loaded at start-up, and [json.dumps] on a slice of it;
    - [client.models.generate_content(model=..., contents=...)], giving the
      response's [text] ([None] when the response holds no text part);
    - [json.loads] and the values it returns. *)
Record World : Type := {
  page : Type;
  PdfReader : bytes -> pyexn + list page;
  extract_text : page -> pyexn + option pystr;
  str_http : Z -> pystr -> pystr;
  entry : Type;
  JOBS_CONTEXT : list entry;
  json_dumps : list entry -> pystr;
  generate_content : pystr -> pystr -> pyexn + option pystr;
  json : Type;
  json_loads : pystr -> pyexn + json
}.

Section Backend.

Variable W : World.

(** [str(e)]. *)
Definition str (e : pyexn) : pystr :=
  match e with
  | HTTPException status_code detail => str_http W status_code detail
  | JSONDecodeError msg => msg
  | Exception msg => msg
  end.

(** The body of [for page in pdf_reader.pages], on [text]. *)
Definition page_step (text : pystr) (p : page W) : M pystr :=
  page_text <- call EvExtractText (extract_text W p) ;;
  match page_text with
  | Some (c :: s) => ret (text ++ page_contribution (c :: s))
  | _ => ret text
  end.

Fixpoint for_pages (pages : list (page W)) (text : pystr) : M pystr :=
  match pages with
  | [] => ret text
  | p :: pages' => text' <- page_step text p ;; for_pages pages' text'
  end.

Definition extract_text_from_pdf (pdf_file : bytes) : M pystr :=
  try_except
    (pages <- call (EvPdfReader pdf_file) (PdfReader W pdf_file) ;;
     for_pages pages [])
    (fun e => raise (HTTPException 400 (lit "Error reading PDF: " ++ str e))).

(** Step 1: strict file validation. *)
Definition validate_upload (resume_pdf : UploadFile) : M unit :=
  if not_pdf resume_pdf then raise (HTTPException 400 invalid_file_type)
  else ret tt.

(** Step 2: extract text from the resume. *)
Definition read_resume (resume_pdf : UploadFile) : M pystr :=
  try_except
    (pdf_content <- call EvRead (read resume_pdf) ;;
     extract_text_from_pdf pdf_content)
    (fun e => raise (HTTPException 500 (lit "Failed to process PDF: " ++ str e))).

(** Steps 3 and 4: the context slice and the prompt. *)
Definition build_prompt
    (company_name : option pystr) (job_description resume_text : pystr) : pystr :=
  let general_context_str := json_dumps W (firstn 50 (JOBS_CONTEXT W)) in
  prompt_template general_context_str (company_or_placeholder company_name)
    job_description resume_text.

(** Step 5: call the model, clean and parse its output. *)
Definition ask_model (prompt : pystr) : M (json W) :=
  try_except
    (response_text <- call (EvGenerateContent MODEL prompt)
                           (generate_content W MODEL prompt) ;;
     text <- match response_text with
             | Some t => ret t
             | None => raise (Exception (lit "'NoneType' object has no attribute 'strip'"))
             end ;;
     let cleaned := clean_response text in
     call (EvJsonLoads cleaned) (json_loads W cleaned))
    (fun e =>
       match e with
       | JSONDecodeError _ => raise (HTTPException 500 invalid_json_format)
       | _ => raise (HTTPException 503 (lit "AI Service Unavailable: " ++ str e))
       end).

(** [POST /analyze-resume]. *)
Definition analyze_resume
    (company_name : option pystr) (job_description : pystr)
    (resume_pdf : UploadFile) : M (json W) :=
  _ <- validate_upload resume_pdf ;;
  resume_text <- read_resume resume_pdf ;;
  ask_model (build_prompt company_name job_description resume_text).

End Backend.

End Main.

(* ================================================================== *)
(** * convert_jobs.py *)
(* ================================================================== *)

Module ConvertJobs.

(** The class of the split pattern: line feed, carriage return, the bullet
    U+2022 and the middle dot U+00B7. *)
Definition is_delim (c : N) : bool :=
  (c =? 10)%N || (c =? 13)%N || (c =? 8226)%N || (c =? 183)%N.

(** [re.split(r'[\n\r..]+', s)]: a maximal run of delimiters separates two
    fields; a delimiter at either end leaves an empty field there. *)
Fixpoint re_split (s : pystr) : list pystr :=
  match s with
  | [] => [[]]
  | c :: s' =>
      if is_delim c then
        match s' with
        | d :: _ => if is_delim d then re_split s' else [] :: re_split s'
        | [] => [] :: re_split s'
        end
      else match re_split s' with
           | f :: fs => (c :: f) :: fs
           | [] => [[c]]
           end
  end.

(** The class of the clean-up pattern: [-], [*], U+27A2 and U+27A3. *)
Definition is_marker (c : N) : bool :=
  (c =? 45)%N || (c =? 42)%N || (c =? 10146)%N || (c =? 10147)%N.

(** [re.sub(r'^[-*..]\s*', '', s)]: the pattern is anchored at the start,
    so it matches at most once. *)
Definition strip_marker (s : pystr) : pystr :=
  match s with
  | [] => []
  | c :: s' => if is_marker c then lstrip s' else s
  end.

(** The body of [for line in lines], on the list [skills]. *)
Definition skill_step (skills : list pystr) (line : pystr) : list pystr :=
  let clean_line := strip line in
  if (len clean_line >? 3)%Z then
    let clean_line := strip_marker clean_line in
    skills ++ [clean_line]
  else skills.

Definition extract_skills_heuristic (description : pystr) : pystr :=
  match description with
  | [] => lit "N/A"
  | _ :: _ =>
      let lines := re_split description in
      let skills := fold_left skill_step lines [] in
      join (lit ", ") (firstn 10 skills)
  end.

End ConvertJobs.

(* ================================================================== *)
(** * The terms of the statements *)
(* ================================================================== *)

Module Terms.

Import Main ConvertJobs.

(** ** The line filter *)

(** The quantities the loop body computes for a line. *)
Definition total_chars (line : pystr) : Z := len (strip line).
Definition ratio (line : pystr) : spec_float :=
  truediv (count_alnum line) (total_chars line).

(** The condition under which the loop body appends the line. *)
Definition keeps (line : pystr) : bool :=
  (0 <? total_chars line)%Z
  && (float_gt (ratio line) float_0_3 || (total_chars line <? 5)%Z).

(** The float test [clean_chars / total_chars > 0.3] gives what the exact
    ratio gives, [3 * total_chars < 10 * clean_chars]. *)
Definition ratio_test_exact (total_chars clean_chars : nat) : bool :=
  Bool.eqb (float_gt (truediv (Z.of_nat clean_chars) (Z.of_nat total_chars)) float_0_3)
           (3 * Z.of_nat total_chars <? 10 * Z.of_nat clean_chars)%Z.

Definition ends_with_newline (s : pystr) : Prop := exists r, s = r ++ nl.

(** ** The handler *)

Definition pdf_type : pystr := lit "application/pdf".

(** The model output [s] wrapped in a json code fence. *)
Definition fenced (s : pystr) : pystr := fence_json ++ s ++ fence.

Definition backtick : N := 96%N.

(** ** The skill heuristic *)

Definition bullet : pystr := [8226%N].

(** The test of the loop body and what it appends. *)
Definition long_enough (line : pystr) : bool := (3 <? len (strip line))%Z.
Definition cleaned (line : pystr) : pystr := strip_marker (strip line).

Section World.

Variable W : World.

(** A page answers: [extract_text] returns instead of raising. *)
Definition answers (p : page W) : Prop := exists r, extract_text W p = inr r.

(** A page without extractable text: [extract_text] gives [None] or [''].  *)
Definition no_text (p : page W) : Prop :=
  extract_text W p = inr None \/ extract_text W p = inr (Some []).

(** A page with raw text. *)
Definition has_text (p : page W) : Prop :=
  exists t, extract_text W p = inr (Some t) /\ t <> [].

(** What a page adds to [text] when the loop passes it. *)
Definition contribution (p : page W) : pystr :=
  match extract_text W p with
  | inr (Some (c :: s)) => page_contribution (c :: s)
  | _ => []
  end.

(** The handler of step 5's [try]. *)
Definition model_handler (e : pyexn) : pyexn :=
  match e with
  | JSONDecodeError _ => HTTPException 500 invalid_json_format
  | _ => HTTPException 503 (lit "AI Service Unavailable: " ++ str W e)
  end.

(** The normalizer: the cleaned text, parsed. *)
Definition normalize (raw : pystr) : pyexn + json W :=
  json_loads W (clean_response raw).

End World.

End Terms.

(* ================================================================== *)
(** * A sample world *)
(* ================================================================== *)

Module Sample.

Import Main.

Definition blit (s : string) : bytes := map byte_of_ascii (list_ascii_of_string s).

Definition bytes_eqb (a b : bytes) : bool :=
  if list_eq_dec Byte.byte_eq_dec a b then true else false.

(** Three files: a resume of three pages (the second without text, the
    third all rules), a scan whose pages hold no text, and one that is no
    PDF at all. *)
Definition resume_file : bytes := blit "%PDF-1.7 resume".
Definition scan_file : bytes := blit "%PDF-1.7 scan".
Definition broken_file : bytes := blit "PK not a pdf".

Definition resume_page : pystr :=
  lit "John Doe" ++ nl ++ lit "........" ++ nl ++ nl ++ lit "5 years experience in Python".

Definition rule_page : pystr := lit "________" ++ nl ++ lit "- - - - -".

(** The reader of the sample world; a page is what [extract_text] gives
    for it. *)
Definition reader (pdf_file : bytes) : pyexn + list (pyexn + option pystr) :=
  if bytes_eqb pdf_file resume_file then inr [inr (Some resume_page); inr None; inr (Some rule_page)]
  else if bytes_eqb pdf_file scan_file then inr [inr None; inr (Some [])]
  else inl (Exception (lit "Stream has ended unexpectedly")).

(** A parser that knows one document, the empty object; it stands in for
    [json.loads] where an example needs a parse and a failure. *)
Definition loads (s : pystr) : pyexn + pystr :=
  if str_eqb s (lit "{}") then inr s
  else inl (JSONDecodeError (lit "Expecting value: line 1 column 1 (char 0)")).

Definition decimal (z : Z) : pystr := lit (NilZero.string_of_int (Z.to_int z)).

(** The sample world, with the provider's answer left open. *)
Definition world (reply : pyexn + option pystr) : World := {|
  page := pyexn + option pystr;
  PdfReader := reader;
  extract_text := fun p => p;
  str_http := fun status_code detail => decimal status_code ++ lit ": " ++ detail;
  entry := pystr;
  JOBS_CONTEXT := map (fun n => lit "job" ++ decimal (Z.of_nat n)) (seq 0 60);
  json_dumps := fun l => lit "[" ++ join (lit ", ") l ++ lit "]";
  generate_content := fun _ _ => reply;
  json := pystr;
  json_loads := loads
|}.

Definition upload (declared : string) (content : bytes) : UploadFile :=
  {| content_type := Some (lit declared); read := inr content |}.

Definition job : pystr :=
  lit "Looking for a backend engineer with Python and API experience".

Definition acme : option pystr := Some (lit "Acme Corp").

(** The provider's answers used below. *)
Definition answers_object : pyexn + option pystr := inr (Some (lit "{}")).
Definition answers_prose : pyexn + option pystr := inr (Some (lit "Sure! Here is the review.")).
Definition network_down : pyexn + option pystr := inl (Exception (lit "Connection refused")).
Definition body_not_json : pyexn + option pystr :=
  inl (JSONDecodeError (lit "Expecting value: line 1 column 1 (char 0)")).

(** The resume text and the prompt of the specification's end-to-end
    example. *)
Definition example_resume_text : pystr :=
  lit "John Doe" ++ nl ++ lit "Software Engineer" ++ nl
  ++ lit "5 years experience in Python".
Definition example_prompt : pystr :=
  build_prompt (world answers_object) acme job example_resume_text.

(** A model output that carries a fence of its own. *)
Definition already_fenced : pystr := lit "```json" ++ nl ++ lit "{}" ++ nl ++ lit "```".

End Sample.

(* ================================================================== *)
(** * convert_jobs.py: the script *)
(* ================================================================== *)

Module ConvertScript.

Import Main ConvertJobs.

(** A row of [csv.DictReader]: a dict from the names of the header to the
    fields of the line.  A name of the header for which the line has no
    field is mapped to [None]; a name that is not in the header is not a
    key. *)
Definition row : Type := pystr -> option (option pystr).

(** [row.get(key, default)]: a string or [None]. *)
Definition get (r : row) (key default : pystr) : option pystr :=
  match r key with
  | Some value => value
  | None => Some default
  end.

(** [value.strip()], which raises on [None]. *)
Definition strip_of (value : option pystr) : pyexn + pystr :=
  match value with
  | Some s => inr (strip s)
  | None => inl (Exception (lit "'NoneType' object has no attribute 'strip'"))
  end.

(** [s or default] on strings. *)
Definition or_default (s default : pystr) : pystr :=
  match s with
  | [] => default
  | _ :: _ => s
  end.

Record job_entry : Type := {
  job_title : pystr;
  company_name : pystr;
  required_skills : pystr
}.

(** The body of [for row in csv_reader], up to [job_entry]. *)
Definition convert_row (r : row) : pyexn + job_entry :=
  match strip_of (get r (lit "Job Type") (lit "N/A")) with
  | inl e => inl e
  | inr title =>
      match strip_of (get r (lit "Company") (lit "N/A")) with
      | inl e => inl e
      | inr company =>
          match strip_of (get r (lit "Description") []) with
          | inl e => inl e
          | inr raw_description =>
              inr {| job_title := or_default title (lit "N/A");
                     company_name := or_default company (lit "N/A");
                     required_skills := extract_skills_heuristic raw_description |}
          end
      end
  end.

(** The loop over the reader, which gives its rows one by one and may
    raise at any of them; [jobs_data] grows by one entry per row. *)
Fixpoint for_rows (rows : list (pyexn + row)) (jobs_data : list job_entry)
  : pyexn + list job_entry :=
  match rows with
  | [] => inr jobs_data
  | inl e :: _ => inl e
  | inr r :: rows' =>
      match convert_row r with
      | inl e => inl e
      | inr entry => for_rows rows' (jobs_data ++ [entry])
      end
  end.

(** The files of one run: opening the CSV file and reading its rows,
    opening the JSON file for writing, [json.dump] into it, and [str(e)]. *)
Record Files : Type := {
  open_csv : pyexn + list (pyexn + row);
  open_json : option pyexn;
  json_dump : list job_entry -> option pyexn;
  str_of : pyexn -> pystr
}.

(** What a run leaves behind, in order: the JSON file emptied by
    [open(..., 'w')], the entries dumped into it, a line printed. *)
Inductive effect : Type :=
| Truncated
| Dumped (jobs_data : list job_entry)
| Printed (line : pystr).

Definition converted : pystr :=
  lit "Successfully converted jobs1.csv to jobs_context.json".

Definition failed (F : Files) (e : pyexn) : effect :=
  Printed (lit "Error converting CSV to JSON: " ++ str_of F e).

(** The [try] of the script. *)
Definition main (F : Files) : list effect :=
  match open_csv F with
  | inl e => [failed F e]
  | inr rows =>
      match for_rows rows [] with
      | inl e => [failed F e]
      | inr jobs_data =>
          match open_json F with
          | Some e => [failed F e]
          | None =>
              match json_dump F jobs_data with
              | Some e => [Truncated; failed F e]
              | None => [Truncated; Dumped jobs_data; Printed converted]
              end
          end
      end
  end.

End ConvertScript.

(* ================================================================== *)
(** * backend/check_key.py *)
(* ================================================================== *)

Module CheckKey.

Import Main.

(** The environment of one run: [os.getenv("GEMINI_API_KEY")], whether
    [genai.Client(api_key=...)] raises, what a call of
    [client.models.generate_content] raises, if anything, and [str(e)]. *)
Record Env : Type := {
  api_key : option pystr;
  Client : option pyexn;
  generate_content : pystr -> pystr -> option pyexn;
  str_of : pyexn -> pystr
}.

Inductive effect : Type :=
| Printed (line : pystr)
| Called (model contents : pystr).

Definition models_to_test : list pystr :=
  [lit "gemini-2.5-flash"; lit "gemini-2.0-flash-exp"; lit "gemini-2.0-flash-lite"].

(** The loop [for model in models]. *)
Fixpoint for_models (E : Env) (models : list pystr) : list effect :=
  match models with
  | [] => []
  | model :: models' =>
      Printed (lit "Testing model: " ++ model)
      :: Called model (lit "Hello")
      :: match generate_content E model (lit "Hello") with
         | None => Printed (lit "SUCCESS: " ++ model ++ lit " works!")
         | Some e => Printed (lit "FAILED: " ++ model ++ lit " - " ++ str_of E e)
         end
      :: for_models E models'
  end.

(** The script: what it prints and calls, and the exception that ends it,
    if one does. *)
Definition main (E : Env) : list effect * option pyexn :=
  match Client E with
  | Some e => ([], Some e)
  | None =>
      match api_key E with
      | None => ([], Some (Exception (lit "'NoneType' object is not subscriptable")))
      | Some key =>
          (Printed (lit "Testing API Key: " ++ firstn 10 key ++ lit "...")
           :: for_models E models_to_test,
           None)
      end
  end.

End CheckKey.

(* ================================================================== *)
(** * Further terms: the handler's calls and answers *)
(* ================================================================== *)

Module HandlerTerms.

Import Main.

(** The outside calls of step 2 on a file of which [n] pages were asked. *)
Definition pdf_calls (pdf_file : bytes) (n : nat) : list event :=
  EvRead :: EvPdfReader pdf_file :: repeat EvExtractText n.


(** The message of the [AttributeError] that [None.strip()] raises. *)
Definition none_has_no_strip : pystr :=
  lit "'NoneType' object has no attribute 'strip'".

(** [x] is a part of [s]: it stands in [s] between two ends. *)
Definition part (x s : pystr) : Prop := exists a b, s = a ++ x ++ b.

(** A string on one line: it holds none of the delimiters of the split. *)
Definition one_line (s : pystr) : bool :=
  forallb (fun c => negb (ConvertJobs.is_delim c)) s.

(** What may follow a run of delimiters: the end, or a character that is
    no delimiter. *)
Definition starts_field (rest : pystr) : Prop :=
  match rest with
  | [] => True
  | c :: _ => ConvertJobs.is_delim c = false
  end.

(** The heuristic as the claim words it: the fragments whose trimmed
    length exceeds 3 are kept and the first 10 of them joined, as they
    are. *)
Definition skills_as_claimed (description : pystr) : pystr :=
  match description with
  | [] => lit "N/A"
  | _ :: _ =>
      join (lit ", ")
        (firstn 10 (filter Terms.long_enough (ConvertJobs.re_split description)))
  end.

(** The skills gathered from a description: the cleaned fields whose
    trimmed length exceeds 3, cut to the first 10. *)
Definition skills_of (description : pystr) : list pystr :=
  firstn 10 (map Terms.cleaned
               (filter Terms.long_enough (ConvertJobs.re_split description))).

(** A row item of the reader that stops the conversion: the reader raises
    at it, or the row does not convert. *)
Definition stops (item : pyexn + ConvertScript.row) : Prop :=
  match item with
  | inl _ => True
  | inr r => exists e, ConvertScript.convert_row r = inl e
  end.

(** A field of an entry is filled from a column: it is [N/A], or it is the
    trimmed field of the row, which is not blank. *)
Definition filled_from (r : ConvertScript.row) (key field : pystr) : Prop :=
  field = lit "N/A"
  \/ exists s, r key = Some (Some s) /\ field = strip s /\ strip s <> [].

(** The calls among the effects of the key checker. *)
Definition is_call (x : CheckKey.effect) : bool :=
  match x with
  | CheckKey.Called _ _ => true
  | CheckKey.Printed _ => false
  end.

Section Pages.

Variable W : World.

(** A line of the extracted text passes: it is empty, or it is a line of
    one of the pages and satisfies the condition of the filter. *)
Definition passes (pages : list (page W)) (line : pystr) : Prop :=
  line = []
  \/ (exists p t, In p pages /\ extract_text W p = inr (Some t) /\ In line (split LF t))
     /\ (0 < Terms.total_chars line)%Z
     /\ (float_gt (Terms.ratio line) float_0_3 = true \/ (Terms.total_chars line < 5)%Z).

End Pages.

End HandlerTerms.

(* ================================================================== *)
(** * main.py: the context the server starts with *)
(* ================================================================== *)

Module Startup.

Import Main.

(** The values [json.load] returns that have no subscript at all. *)
Inductive scalar : Type := JsonInt | JsonFloat | JsonBool | JsonNull.

Definition type_name (v : scalar) : pystr :=
  match v with
  | JsonInt => lit "int"
  | JsonFloat => lit "float"
  | JsonBool => lit "bool"
  | JsonNull => lit "NoneType"
  end.

(** What step 3 takes from the interpreter besides the world:
    [json.dumps] on a string, and the message of the exception that a slice
    of a dict raises (a [TypeError] before Python 3.12, a [KeyError] from
    then on; a subclass of [Exception] in both). *)
Record Runtime : Type := {
  dumps_str : pystr -> pystr;
  dict_slice_msg : pystr
}.

Section Context.

Variable W : World.
Variable R : Runtime.

(** What [json.load] can return for the context file: the top value of a
    JSON document. *)
Inductive loaded : Type :=
| JsonArray (jobs : list (entry W))
| JsonString (s : pystr)
| JsonObject
| JsonScalar (v : scalar).

(** Lines 33 to 38: [JOBS_CONTEXT] is [[]]; then it is what [json.load]
    returned, or, when the file could not be opened or parsed, a warning
    is printed and it stays [[]].  The lines printed come first. *)
Definition load_jobs_context (file : pyexn + loaded) : list pystr * loaded :=
  match file with
  | inr v => ([], v)
  | inl e => ([lit "Warning: Could not load jobs_context.json: " ++ str W e],
              JsonArray [])
  end.

(** Step 3, line 96: [json.dumps(JOBS_CONTEXT[:50])].  A list and a string
    have slices; a dict and a scalar raise. *)
Definition general_context_str (JOBS_CONTEXT : loaded) : pyexn + pystr :=
  match JOBS_CONTEXT with
  | JsonArray jobs => inr (json_dumps W (firstn 50 jobs))
  | JsonString s => inr (dumps_str R (firstn 50 s))
  | JsonObject => inl (Exception (dict_slice_msg R))
  | JsonScalar v =>
      inl (Exception (lit "'" ++ type_name v ++ lit "' object is not subscriptable"))
  end.

(** Step 3 in the handler: it stands in no [try]. *)
Definition prepare_context (JOBS_CONTEXT : loaded) : M pystr :=
  match general_context_str JOBS_CONTEXT with
  | inl e => raise e
  | inr s => ret s
  end.

(** [POST /analyze-resume] on the context the server started with. *)
Definition analyze_resume_on
    (JOBS_CONTEXT : loaded) (company_name : option pystr)
    (job_description : pystr) (resume_pdf : UploadFile) : M (json W) :=
  _ <- validate_upload resume_pdf ;;
  resume_text <- read_resume W resume_pdf ;;
  general_context_str <- prepare_context JOBS_CONTEXT ;;
  ask_model W
    (prompt_template general_context_str (company_or_placeholder company_name)
       job_description resume_text).

End Context.

End Startup.

(* ================================================================== *)
(** * More of the sample world *)
(* ================================================================== *)

Module MoreSample.

Import Main Sample.

(** The sample world with a parser that gives up on deep nesting, and with
    a reader whose second page cannot be read. *)
Definition deep_world : World := {|
  page := page (world answers_object);
  PdfReader := PdfReader (world answers_object);
  extract_text := extract_text (world answers_object);
  str_http := str_http (world answers_object);
  entry := entry (world answers_object);
  JOBS_CONTEXT := JOBS_CONTEXT (world answers_object);
  json_dumps := json_dumps (world answers_object);
  generate_content := fun _ _ => inr (Some (lit "[[[[]]]]"));
  json := pystr;
  json_loads := fun _ => inl (Exception (lit "maximum recursion depth exceeded"))
|}.

Definition torn_pages : list (pyexn + option pystr) :=
  [inr (Some resume_page); inl (Exception (lit "Invalid object in page 2")); inr None].

Definition torn_world : World := {|
  page := pyexn + option pystr;
  PdfReader := fun _ => inr torn_pages;
  extract_text := fun p => p;
  str_http := str_http (world answers_object);
  entry := entry (world answers_object);
  JOBS_CONTEXT := JOBS_CONTEXT (world answers_object);
  json_dumps := json_dumps (world answers_object);
  generate_content := fun _ _ => answers_object;
  json := pystr;
  json_loads := loads
|}.

(** An upload whose stream cannot be read. *)
Definition closed_upload : UploadFile :=
  {| content_type := Some (lit "application/pdf");
     read := inl (Exception (lit "I/O operation on closed file")) |}.

Definition no_text_part : pyexn + option pystr := inr None.

(** Rows of a CSV file, as dicts. *)
Definition row_of (fields : list (pystr * option pystr)) : ConvertScript.row :=
  fun key =>
    match find (fun kv => str_eqb (fst kv) key) fields with
    | Some kv => Some (snd kv)
    | None => None
    end.

Definition bullet_point : pystr := [8226%N; 32%N].

(** A full row, a row with a blank company and no description column, and
    a row of a line shorter than the header. *)
Definition full_row : ConvertScript.row :=
  row_of [(lit "Job Type", Some (lit " Backend Engineer "));
          (lit "Company", Some (lit "Acme Corp"));
          (lit "Description",
           Some (bullet_point ++ lit "Python and APIs" ++ nl ++ bullet_point ++ lit "SQL"))].
Definition sparse_row : ConvertScript.row :=
  row_of [(lit "Job Type", Some (lit "Analyst")); (lit "Company", Some (lit "  "))].
Definition short_row : ConvertScript.row :=
  row_of [(lit "Job Type", Some (lit "Intern")); (lit "Company", None);
          (lit "Description", None)].

Definition full_entry : ConvertScript.job_entry :=
  {| ConvertScript.job_title := lit "Backend Engineer";
     ConvertScript.company_name := lit "Acme Corp";
     ConvertScript.required_skills := lit "Python and APIs" |}.
Definition sparse_entry : ConvertScript.job_entry :=
  {| ConvertScript.job_title := lit "Analyst";
     ConvertScript.company_name := lit "N/A";
     ConvertScript.required_skills := lit "N/A" |}.

Definition message (e : pyexn) : pystr :=
  match e with
  | HTTPException _ detail => detail
  | JSONDecodeError msg => msg
  | Exception msg => msg
  end.

Definition good_files : ConvertScript.Files := {|
  ConvertScript.open_csv := inr [inr full_row; inr sparse_row];
  ConvertScript.open_json := None;
  ConvertScript.json_dump := fun _ => None;
  ConvertScript.str_of := message
|}.
Definition short_line_files : ConvertScript.Files := {|
  ConvertScript.open_csv := inr [inr full_row; inr short_row; inr sparse_row];
  ConvertScript.open_json := None;
  ConvertScript.json_dump := fun _ => None;
  ConvertScript.str_of := message
|}.

(** An environment in which the second model is not available. *)
Definition one_model_down : CheckKey.Env := {|
  CheckKey.api_key := Some (lit "AIzaSyD-0123456789abcdef");
  CheckKey.Client := None;
  CheckKey.generate_content := fun model _ =>
    if str_eqb model (lit "gemini-2.0-flash-exp")
    then Some (Exception (lit "404 NOT_FOUND")) else None;
  CheckKey.str_of := message
|}.

(** A model output that is no JSON document: 2000 opening brackets and
    none that closes. *)
Definition open_bracket : N := 91%N.
Definition unclosed : pystr := repeat open_bracket 2000.

(** The number of times [c] stands at the start of [s]. *)
Fixpoint leading (c : N) (s : pystr) : nat :=
  match s with
  | [] => 0
  | d :: s' => if (d =? c)%N then S (leading c s') else 0
  end.

Definition recursion_error : pystr :=
  lit "maximum recursion depth exceeded while decoding a JSON array from a unicode string".

(** The parser of the sample world with the limit CPython's parser has by
    default: at 1000 arrays opened one inside the other it raises a
    [RecursionError], before it reads on. *)
Definition nesting_loads (s : pystr) : pyexn + pystr :=
  if (1000 <=? leading open_bracket s)%nat then inl (Exception recursion_error)
  else loads s.

Definition nesting_world : World := {|
  page := page (world answers_object);
  PdfReader := PdfReader (world answers_object);
  extract_text := extract_text (world answers_object);
  str_http := str_http (world answers_object);
  entry := entry (world answers_object);
  JOBS_CONTEXT := JOBS_CONTEXT (world answers_object);
  json_dumps := json_dumps (world answers_object);
  generate_content := fun _ _ => inr (Some unclosed);
  json := pystr;
  json_loads := nesting_loads
|}.

(** An interpreter before Python 3.12, and a context file that holds an
    object instead of an array. *)
Definition runtime : Startup.Runtime := {|
  Startup.dumps_str := fun s => dq ++ s ++ dq;
  Startup.dict_slice_msg := lit "unhashable type: 'slice'"
|}.

Definition object_file : pyexn + Startup.loaded (world answers_object) :=
  inr (Startup.JsonObject (world answers_object)).

Definition missing_file : pyexn + Startup.loaded (world answers_object) :=
  inl (Exception (lit "[Errno 2] No such file or directory: 'jobs_context.json'")).

(** A description with a list marker and with blanks around a fragment. *)
Definition marked_description : pystr :=
  lit "- Git and more" ++ nl ++ lit "  Python dev ".

(** The text of the resume file, its upload and the calls of its reading. *)
Definition resume_text : pystr :=
  lit "John Doe" ++ nl ++ lit "5 years experience in Python" ++ nl ++ nl.

Definition pdf_upload : UploadFile := upload "application/pdf" resume_file.

Definition resume_calls : list event :=
  [EvRead; EvPdfReader resume_file; EvExtractText; EvExtractText; EvExtractText].

End MoreSample.

(* ================================================================== *)
(** * Facts about the string operations *)
(* ================================================================== *)

Module PyFacts.

Example split_ex :
  split LF (lit "a" ++ nl ++ nl ++ lit "b" ++ nl) = [lit "a"; []; lit "b"; []].
Proof. reflexivity. Qed.

Example strip_ex : strip (lit "  a b  ") = lit "a b".
Proof. reflexivity. Qed.

(** The literal [0.3] is the float that [3 / 10] rounds to, and the float
    test separates the neighbours of 3/10 as the exact ratio does. *)
Example truediv_ex :
  truediv 3 10 = float_0_3 /\
  float_gt (truediv 3 10) float_0_3 = false /\
  float_gt (truediv 31 100) float_0_3 = true /\
  float_gt (truediv 299999 1000000) float_0_3 = false /\
  float_gt (truediv 300001 1000000) float_0_3 = true.
Proof. vm_compute. repeat split. Qed.

(** ** Loops that append *)

Lemma fold_left_snoc (A B : Type) (keep : A -> bool) (f : A -> B) (l : list A) :
  forall acc : list B,
    fold_left (fun acc x => if keep x then acc ++ [f x] else acc) l acc
    = acc ++ map f (filter keep l).
Proof.
  induction l as [|x l IH]; intros acc; simpl.
  - now rewrite app_nil_r.
  - rewrite IH. destruct (keep x); simpl; [now rewrite <- app_assoc|reflexivity].
Qed.

(** ** [startswith], [endswith] and slices *)

Lemma startswith_app (p s : pystr) : startswith (p ++ s) p = true.
Proof.
  induction p as [|c p IH]; simpl; [reflexivity|].
  now rewrite N.eqb_refl, IH.
Qed.

Lemma startswith_true_iff (s p : pystr) :
  startswith s p = true <-> exists r, s = p ++ r.
Proof.
  split.
  - revert s; induction p as [|c p IH]; intros s H; simpl in *.
    + now exists s.
    + destruct s as [|d s]; [discriminate|].
      apply andb_true_iff in H as [Hc Hs]. apply N.eqb_eq in Hc; subst d.
      destruct (IH _ Hs) as [r ->]. now exists r.
  - intros [r ->]. apply startswith_app.
Qed.

Lemma endswith_app (s p : pystr) : endswith (s ++ p) p = true.
Proof. unfold endswith. rewrite rev_app_distr. apply startswith_app. Qed.

Lemma endswith_true_iff (s p : pystr) :
  endswith s p = true <-> exists r, s = r ++ p.
Proof.
  unfold endswith. rewrite startswith_true_iff. split.
  - intros [r H]. exists (rev r).
    rewrite <- (rev_involutive s), H, rev_app_distr. now rewrite rev_involutive.
  - intros [r ->]. exists (rev r). apply rev_app_distr.
Qed.

Lemma startswith_longer (s p : pystr) :
  (length s < length p)%nat -> startswith s p = false.
Proof.
  revert s; induction p as [|c p IH]; intros s H; simpl in *; [lia|].
  destruct s as [|d s]; [reflexivity|]. simpl in H.
  rewrite IH by lia. apply andb_false_r.
Qed.

Lemma endswith_longer (s p : pystr) :
  (length s < length p)%nat -> endswith s p = false.
Proof.
  intros H. unfold endswith. apply startswith_longer. now rewrite !length_rev.
Qed.

Lemma slice_from_app (p s : pystr) : slice_from (length p) (p ++ s) = s.
Proof.
  unfold slice_from. induction p as [|c p IH]; simpl; [reflexivity|exact IH].
Qed.

Lemma slice_to_minus_app (s p : pystr) : slice_to_minus (length p) (s ++ p) = s.
Proof.
  unfold slice_to_minus. rewrite length_app.
  replace (length s + length p - length p)%nat with (length s + 0)%nat by lia.
  rewrite firstn_app_2. simpl. apply app_nil_r.
Qed.

(** ** [strip] *)

Lemma lstrip_nonspace (c : N) (s : pystr) :
  isspace c = false -> lstrip (c :: s) = c :: s.
Proof. intros H; simpl; now rewrite H. Qed.

Lemma lstrip_snoc_nonspace (s : pystr) (c : N) :
  isspace c = false -> lstrip (s ++ [c]) = lstrip s ++ [c].
Proof.
  intros H. induction s as [|d s IH]; simpl.
  - now rewrite H.
  - destruct (isspace d); [exact IH|reflexivity].
Qed.

Lemma rstrip_cons_nonspace (c : N) (s : pystr) :
  isspace c = false -> rstrip (c :: s) = c :: rstrip s.
Proof.
  intros H. unfold rstrip. simpl rev.
  rewrite lstrip_snoc_nonspace by exact H.
  now rewrite rev_app_distr.
Qed.

Lemma rstrip_snoc_nonspace (s : pystr) (c : N) :
  isspace c = false -> rstrip (s ++ [c]) = s ++ [c].
Proof.
  intros H. unfold rstrip. rewrite rev_app_distr. simpl.
  rewrite H. simpl. now rewrite rev_involutive.
Qed.

(** What [lstrip] returns is empty or starts with a character that is not
    white space. *)
Lemma lstrip_head (s : pystr) :
  lstrip s = [] \/ exists c r, lstrip s = c :: r /\ isspace c = false.
Proof.
  induction s as [|d s IH]; simpl; [now left|].
  destruct (isspace d) eqn:E; [exact IH|].
  right. now exists d, s.
Qed.

Lemma lstrip_idem (s : pystr) : lstrip (lstrip s) = lstrip s.
Proof.
  destruct (lstrip_head s) as [->|(c & r & -> & H)]; [reflexivity|].
  now apply lstrip_nonspace.
Qed.

Lemma rstrip_idem (s : pystr) : rstrip (rstrip s) = rstrip s.
Proof. unfold rstrip. now rewrite rev_involutive, lstrip_idem. Qed.

(** Removing trailing white space leaves the first character in place. *)
Lemma rstrip_head (s : pystr) :
  (s = [] \/ exists c r, s = c :: r /\ isspace c = false) ->
  rstrip s = [] \/ exists c r, rstrip s = c :: r /\ isspace c = false.
Proof.
  intros [->|(c & r & -> & H)]; [now left|].
  right. exists c, (rstrip r). split; [now apply rstrip_cons_nonspace|exact H].
Qed.

Lemma strip_head (s : pystr) :
  strip s = [] \/ exists c r, strip s = c :: r /\ isspace c = false.
Proof. unfold strip. apply rstrip_head, lstrip_head. Qed.

Lemma lstrip_rstrip (s : pystr) : lstrip (rstrip (lstrip s)) = rstrip (lstrip s).
Proof.
  destruct (rstrip_head (lstrip_head s)) as [->|(c & r & -> & H)]; [reflexivity|].
  now apply lstrip_nonspace.
Qed.

Lemma strip_idem (s : pystr) : strip (strip s) = strip s.
Proof. unfold strip. now rewrite lstrip_rstrip, rstrip_idem. Qed.

(** What [strip] removes is white space at the two ends, and nothing is
    left to remove. *)
Lemma lstrip_spec (s : pystr) :
  exists ws, s = ws ++ lstrip s /\ forallb isspace ws = true.
Proof.
  induction s as [|c s (ws & Hs & Hws)]; [now exists []|]. simpl.
  destruct (isspace c) eqn:E.
  - exists (c :: ws). simpl. rewrite E, Hws. split; [now rewrite <- Hs|reflexivity].
  - now exists [].
Qed.

Lemma rstrip_spec (s : pystr) :
  exists ws, s = rstrip s ++ ws /\ forallb isspace ws = true.
Proof.
  unfold rstrip. destruct (lstrip_spec (rev s)) as (ws & Hs & Hws).
  exists (rev ws). split.
  - rewrite <- rev_app_distr, <- Hs. now rewrite rev_involutive.
  - rewrite forallb_forall in *. intros c Hc. apply Hws. now apply in_rev.
Qed.

Lemma strip_spec (s : pystr) :
  exists a b, s = a ++ strip s ++ b
              /\ forallb isspace a = true /\ forallb isspace b = true.
Proof.
  destruct (lstrip_spec s) as (a & Ha & Hsa).
  destruct (rstrip_spec (lstrip s)) as (b & Hb & Hsb).
  exists a, b. unfold strip. now rewrite <- Hb, <- Ha.
Qed.

(** ** [split] and [join] *)

Lemma split_nonempty (sep : N) (s : pystr) : split sep s <> [].
Proof.
  induction s as [|c s IH]; simpl; [discriminate|].
  destruct (c =? sep)%N; [discriminate|]. destruct (split sep s); discriminate.
Qed.

(** Joining the fields with the separator gives the string back. *)
Lemma join_split (sep : N) (s : pystr) : join [sep] (split sep s) = s.
Proof.
  induction s as [|c s IH]; [reflexivity|]. cbn [split].
  pose proof (split_nonempty sep s) as Hne.
  destruct (N.eqb_spec c sep) as [->|Hc].
  - destruct (split sep s) as [|f fs]; [congruence|].
    now rewrite <- IH.
  - destruct (split sep s) as [|f fs]; [congruence|].
    destruct fs as [|g fs]; cbn [join app] in *; now rewrite <- IH.
Qed.

(** No field holds the separator. *)
Lemma split_fields (sep : N) (s : pystr) :
  Forall (fun f => ~ In sep f) (split sep s).
Proof.
  induction s as [|c s IH]; [now repeat constructor|]. cbn [split].
  destruct (N.eqb_spec c sep) as [->|Hc].
  - constructor; [now intros []|exact IH].
  - destruct (split sep s) as [|f fs]; [repeat constructor; intros [H|[]]; congruence|].
    inversion IH as [|? ? Hf Hfs]; subst. constructor; [|exact Hfs].
    intros [H|H]; [congruence|contradiction].
Qed.

(** ** [in] *)

Lemma contains_unfold (s p : pystr) :
  contains s p
  = startswith s p || match s with [] => false | _ :: s' => contains s' p end.
Proof. destruct s; reflexivity. Qed.

Lemma contains_app (a p b : pystr) : contains (a ++ p ++ b) p = true.
Proof.
  induction a as [|c a IH]; simpl.
  - now rewrite contains_unfold, startswith_app.
  - rewrite IH. apply orb_true_r.
Qed.

Lemma contains_true_iff (s p : pystr) :
  contains s p = true <-> exists a b, s = a ++ p ++ b.
Proof.
  split.
  - induction s as [|c s IH]; rewrite contains_unfold, orb_true_iff.
    + intros [H|H]; [|discriminate].
      apply startswith_true_iff in H as [r H]. now exists [], r.
    + intros [H|H].
      * apply startswith_true_iff in H as [r H]. now exists [], r.
      * destruct (IH H) as (a & b & ->). now exists (c :: a), b.
  - intros (a & b & ->). apply contains_app.
Qed.

(** An occurrence in a part is an occurrence in the whole. *)
Lemma contains_in_part (a s b p : pystr) :
  contains s p = true -> contains (a ++ s ++ b) p = true.
Proof.
  intros H. apply contains_true_iff in H as (x & y & ->).
  apply contains_true_iff. exists (a ++ x), (y ++ b).
  now rewrite <- !app_assoc.
Qed.

End PyFacts.

(* ================================================================== *)
(** * Facts about backend/main.py *)
(* ================================================================== *)

Module MainFacts.

Import Main Terms PyFacts.

(** ** Float comparison *)

Lemma SFcompare_antisym (x y : spec_float) (c : comparison) :
  SFcompare x y = Some c -> SFcompare y x = Some (CompOpp c).
Proof.
  assert (Hm : forall p q, Pos.compare_cont Eq q p = CompOpp (Pos.compare_cont Eq p q)).
  { intros p q. now rewrite Pos.compare_cont_antisym. }
  destruct x as [sx|sx| |sx mx ex], y as [sy|sy| |sy my ey]; simpl;
    intros H; inversion H; subst; clear H;
    try (destruct sx); try (destruct sy); simpl; try reflexivity;
    rewrite (Z.compare_antisym ex ey), (Hm mx my);
    destruct (ex ?= ey)%Z; simpl; try reflexivity;
    destruct (Pos.compare_cont Eq mx my); reflexivity.
Qed.

(** [x <= y] excludes [x > y]. *)
Lemma float_le_not_gt (x y : spec_float) :
  float_le x y = true -> float_gt x y = false.
Proof.
  unfold float_le, float_gt, SFleb, SFltb.
  destruct (SFcompare x y) as [c|] eqn:E; [|discriminate].
  rewrite (SFcompare_antisym _ _ E).
  destruct c; simpl; intros H; try reflexivity; discriminate.
Qed.

(** On every line of up to 200 characters the float test is the exact
    test of the ratio against 3/10. *)
Lemma ratio_test_exact_to_200 :
  forallb (fun t => forallb (ratio_test_exact t) (seq 0 (S t))) (seq 1 200) = true.
Proof. vm_compute. reflexivity. Qed.

Lemma ratio_test_exact_200 (total_chars clean_chars : nat) :
  (1 <= total_chars <= 200)%nat -> (clean_chars <= total_chars)%nat ->
  float_gt (truediv (Z.of_nat clean_chars) (Z.of_nat total_chars)) float_0_3
  = (3 * Z.of_nat total_chars <? 10 * Z.of_nat clean_chars)%Z.
Proof.
  intros Ht Hc. apply Bool.eqb_prop.
  change (ratio_test_exact total_chars clean_chars = true).
  pose proof ratio_test_exact_to_200 as H.
  apply forallb_forall with (x := total_chars) in H; [|apply in_seq; lia].
  apply forallb_forall with (x := clean_chars) in H; [exact H|apply in_seq; lia].
Qed.

(** ** The line filter *)

(** White space is not alphanumeric, so the count over the line is the
    count over the trimmed line. *)
Lemma alnum_not_space (c : N) : is_alnum c = true -> isspace c = false.
Proof.
  unfold is_alnum, isspace, in_range.
  rewrite !orb_true_iff, !andb_true_iff, !N.leb_le. intros H.
  repeat (apply orb_false_iff; split);
    try (apply andb_false_iff; rewrite !N.leb_gt; lia);
    apply N.eqb_neq; lia.
Qed.

Lemma filter_alnum_lstrip (s : pystr) :
  filter is_alnum (lstrip s) = filter is_alnum s.
Proof.
  induction s as [|c s IH]; [reflexivity|]. simpl.
  destruct (isspace c) eqn:E; [|reflexivity].
  destruct (is_alnum c) eqn:A; [|exact IH].
  apply alnum_not_space in A. congruence.
Qed.

Lemma filter_alnum_rstrip (s : pystr) :
  filter is_alnum (rstrip s) = filter is_alnum s.
Proof.
  unfold rstrip.
  rewrite <- (rev_involutive (filter is_alnum (rev (lstrip (rev s))))).
  rewrite <- filter_rev, rev_involutive, filter_alnum_lstrip.
  now rewrite filter_rev, rev_involutive.
Qed.

Lemma count_alnum_strip (line : pystr) :
  count_alnum (strip line) = count_alnum line.
Proof.
  unfold count_alnum, strip.
  now rewrite filter_alnum_rstrip, filter_alnum_lstrip.
Qed.

Lemma clean_step_keeps (cleaned_lines : list pystr) (line : pystr) :
  clean_step cleaned_lines line
  = if keeps line then cleaned_lines ++ [line] else cleaned_lines.
Proof.
  unfold clean_step, keeps, ratio, total_chars.
  rewrite Z.gtb_ltb. destruct (0 <? len (strip line))%Z; reflexivity.
Qed.

Lemma snoc_neq (A : Type) (l : list A) (x : A) : l ++ [x] <> l.
Proof.
  intros H. apply (f_equal (@length A)) in H.
  rewrite length_app in H. simpl in H. lia.
Qed.

Lemma keeps_true_iff (line : pystr) :
  keeps line = true <->
  (0 < total_chars line)%Z /\
  (float_gt (ratio line) float_0_3 = true \/ (total_chars line < 5)%Z).
Proof.
  unfold keeps. rewrite andb_true_iff, orb_true_iff, Z.ltb_lt, Z.ltb_lt.
  reflexivity.
Qed.

(** The loop keeps the retained lines in their order. *)
Lemma fold_clean_step (lines : list pystr) :
  forall cleaned_lines,
    fold_left clean_step lines cleaned_lines = cleaned_lines ++ filter keeps lines.
Proof.
  induction lines as [|line lines IH]; intros acc; simpl.
  - now rewrite app_nil_r.
  - rewrite IH, clean_step_keeps.
    destruct (keeps line); [now rewrite <- app_assoc|reflexivity].
Qed.

Lemma clean_lines_filter (lines : list pystr) :
  clean_lines lines = filter keeps lines.
Proof. unfold clean_lines. now rewrite fold_clean_step. Qed.

(** The retained lines of a page are those that satisfy the condition, in
    their order. *)
Lemma clean_lines_In (lines : list pystr) (line : pystr) :
  In line (clean_lines lines) <->
  In line lines /\ (0 < total_chars line)%Z /\
  (float_gt (ratio line) float_0_3 = true \/ (total_chars line < 5)%Z).
Proof. now rewrite clean_lines_filter, filter_In, keeps_true_iff. Qed.

(** C2 (as amended).  The loop body appends a line exactly when its trimmed
    length is positive and either its ratio of alphanumeric characters to
    trimmed length exceeds 0.3 or its trimmed length is under 5; otherwise
    it leaves the list as it is.  So a line with ratio at most 0.3 and
    trimmed length at least 5 is dropped, a line of trimmed length 1 to 4 is
    retained, and a line of trimmed length 0 is dropped; and the lines left
    after the loop over a page are the lines of the page that satisfy the
    condition. *)
Theorem clean_step_retains_iff (cleaned_lines : list pystr) (line : pystr) :
  (clean_step cleaned_lines line = cleaned_lines ++ [line] <->
   (0 < total_chars line)%Z /\
   (float_gt (ratio line) float_0_3 = true \/ (total_chars line < 5)%Z))
  /\ (clean_step cleaned_lines line = cleaned_lines <->
      ~ ((0 < total_chars line)%Z /\
         (float_gt (ratio line) float_0_3 = true \/ (total_chars line < 5)%Z)))
  /\ (float_le (ratio line) float_0_3 = true -> (5 <= total_chars line)%Z ->
      clean_step cleaned_lines line = cleaned_lines)
  /\ ((0 < total_chars line < 5)%Z ->
      clean_step cleaned_lines line = cleaned_lines ++ [line])
  /\ (total_chars line = 0%Z -> clean_step cleaned_lines line = cleaned_lines)
  /\ (forall lines,
      In line (clean_lines lines) <->
      In line lines /\ (0 < total_chars line)%Z /\
      (float_gt (ratio line) float_0_3 = true \/ (total_chars line < 5)%Z)).
Proof.
  split; [|split; [|split; [|split; [|split]]]];
    try (intros lines; apply clean_lines_In);
    rewrite clean_step_keeps, <- ?keeps_true_iff;
    destruct (keeps line) eqn:K.
  - split; [reflexivity|]. intros _. reflexivity.
  - split; [|discriminate]. intros H. symmetry in H. now apply snoc_neq in H.
  - split; [|tauto]. intros H. now apply snoc_neq in H.
  - split; [|reflexivity]. intros _. discriminate.
  - intros Hle Hlen. apply float_le_not_gt in Hle.
    apply keeps_true_iff in K as [_ [Hgt|Hlt]]; [congruence|lia].
  - reflexivity.
  - reflexivity.
  - intros Hlen. exfalso.
    assert (keeps line = true); [|congruence].
    apply keeps_true_iff. split; [lia|right; lia].
  - apply keeps_true_iff in K. lia.
  - reflexivity.
Qed.

(** C2, the claim as written, fails on a blank line: its trimmed length,
    0, is under 5, and the loop drops it (an empty line, a line of spaces,
    and the blank line between two retained lines of a page). *)
Lemma blank_line_dropped :
  (total_chars [] < 5)%Z
  /\ clean_step [] [] <> [] ++ [[]]
  /\ (total_chars (lit "   ") < 5)%Z
  /\ clean_step [] (lit "   ") <> [] ++ [lit "   "]
  /\ clean_lines (split LF (lit "ab" ++ nl ++ nl ++ lit "cd")) = [lit "ab"; lit "cd"].
Proof. vm_compute. repeat split; discriminate. Qed.

(** ** The extractor *)

Lemma concat_ends_with_newline (l : list pystr) :
  Forall (fun x => x = [] \/ ends_with_newline x) l ->
  concat l = [] \/ ends_with_newline (concat l).
Proof.
  induction 1 as [|x l Hx _ IH]; simpl; [now left|].
  destruct IH as [->|[r ->]].
  - rewrite app_nil_r. exact Hx.
  - right. exists (x ++ r). now rewrite app_assoc.
Qed.

Lemma page_contribution_ends (page_text : pystr) :
  ends_with_newline (page_contribution page_text).
Proof. now exists (join nl (clean_lines (split LF page_text))). Qed.

Section Extractor.

Variable W : World.

Lemma page_step_ok (text : pystr) (p : page W) (r : option pystr) :
  extract_text W p = inr r ->
  page_step W text p = ([EvExtractText], inr (text ++ contribution W p)).
Proof.
  unfold page_step, contribution, call, bind. intros ->.
  destruct r as [[|c s]|]; simpl; rewrite ?app_nil_r; reflexivity.
Qed.

Lemma page_step_raises (text : pystr) (p : page W) (e : pyexn) :
  extract_text W p = inl e -> page_step W text p = ([EvExtractText], inl e).
Proof. unfold page_step, call, bind. now intros ->. Qed.

Lemma for_pages_ok (pages : list (page W)) :
  forall text,
    Forall (answers W) pages ->
    for_pages W pages text
    = (repeat EvExtractText (length pages),
       inr (text ++ concat (map (contribution W) pages))).
Proof.
  induction pages as [|p pages IH]; intros text H; simpl.
  - now rewrite app_nil_r.
  - inversion H as [|? ? [r Hr] Hrest]; subst.
    rewrite (page_step_ok text _ Hr). unfold bind.
    rewrite IH by assumption. simpl. now rewrite <- app_assoc.
Qed.

(** The loop stops at the first page that raises. *)
Lemma for_pages_stops (good rest : list (page W)) (bad : page W) (e : pyexn) :
  forall text,
    Forall (answers W) good ->
    extract_text W bad = inl e ->
    for_pages W (good ++ bad :: rest) text
    = (repeat EvExtractText (S (length good)), inl e).
Proof.
  induction good as [|p good IH]; intros text Hg Hb; cbn [app for_pages].
  - now rewrite (page_step_raises text _ Hb).
  - inversion Hg as [|? ? [r Hr] Hg']; subst.
    rewrite (page_step_ok text _ Hr). unfold bind.
    now rewrite (IH (text ++ contribution W p) Hg' Hb).
Qed.


(** The loop returns only when every page answers. *)
Lemma for_pages_returns (pages : list (page W)) :
  forall text out,
    outcome (for_pages W pages text) = inr out -> Forall (answers W) pages.
Proof.
  induction pages as [|p pages IH]; intros text out H; [constructor|].
  simpl in H. destruct (extract_text W p) as [e|r] eqn:E.
  - rewrite (page_step_raises text _ E) in H. discriminate.
  - rewrite (page_step_ok text _ E) in H. unfold bind in H.
    destruct (for_pages W pages (text ++ contribution W p)) as [t o] eqn:F.
    simpl in H. subst o. constructor; [now exists r|].
    apply (IH (text ++ contribution W p) out). now rewrite F.
Qed.

Lemma extract_ok (pdf_file : bytes) (pages : list (page W)) :
  PdfReader W pdf_file = inr pages ->
  Forall (answers W) pages ->
  extract_text_from_pdf W pdf_file
  = (EvPdfReader pdf_file :: repeat EvExtractText (length pages),
     inr (concat (map (contribution W) pages))).
Proof.
  intros Hr Hp. unfold extract_text_from_pdf, call, bind. rewrite Hr.
  now rewrite (for_pages_ok [] Hp).
Qed.

Lemma extract_returns (pdf_file : bytes) (pages : list (page W)) (out : pystr) :
  PdfReader W pdf_file = inr pages ->
  outcome (extract_text_from_pdf W pdf_file) = inr out ->
  Forall (answers W) pages.
Proof.
  intros Hr. unfold extract_text_from_pdf, call, bind. rewrite Hr.
  destruct (for_pages W pages []) as [t [e|o]] eqn:F; simpl; [discriminate|].
  intros _. apply (for_pages_returns pages [] (out := o)). now rewrite F.
Qed.



Lemma no_text_contribution (p : page W) : no_text W p -> contribution W p = [].
Proof. unfold contribution. now intros [-> | ->]. Qed.

Lemma has_text_contribution (p : page W) :
  has_text W p -> ends_with_newline (contribution W p).
Proof.
  unfold contribution. intros (t & -> & Ht).
  destruct t as [|c s]; [congruence|]. apply page_contribution_ends.
Qed.

Lemma contribution_shape (p : page W) :
  contribution W p = [] \/ ends_with_newline (contribution W p).
Proof.
  unfold contribution.
  destruct (extract_text W p) as [e|[[|c s]|]]; try (now left).
  right. apply page_contribution_ends.
Qed.

(** C8.  When the reader opens the file and every page yields no text
    ([None] or the empty string), the extractor returns the empty string;
    it raises nothing, having asked every page once. *)
Theorem extract_no_text (pdf_file : bytes) (pages : list (page W)) :
  PdfReader W pdf_file = inr pages ->
  Forall (no_text W) pages ->
  extract_text_from_pdf W pdf_file
  = (EvPdfReader pdf_file :: repeat EvExtractText (length pages), inr []).
Proof.
  intros Hr Hp.
  assert (Ha : Forall (answers W) pages).
  { eapply Forall_impl; [|exact Hp]. intros p [H|H]; eexists; exact H. }
  rewrite (extract_ok _ Hr Ha). do 2 f_equal.
  clear Hr Ha. induction Hp as [|p pages Hp _ IH]; simpl; [reflexivity|].
  now rewrite (no_text_contribution Hp), IH.
Qed.

(** C10.  A page with non-empty raw text adds the retained lines joined by
    newlines and then one more newline; when all its lines are dropped it
    adds a single newline.  Hence a text the extractor returns ends with a
    newline as soon as one page had raw text. *)
Theorem page_adds_trailing_newline :
  (forall text p t,
      extract_text W p = inr (Some t) -> t <> [] ->
      page_step W text p
      = ([EvExtractText], inr (text ++ join nl (clean_lines (split LF t)) ++ nl)))
  /\ (forall text p t,
      extract_text W p = inr (Some t) -> t <> [] ->
      clean_lines (split LF t) = [] ->
      page_step W text p = ([EvExtractText], inr (text ++ nl)))
  /\ (forall pdf_file pages out,
      PdfReader W pdf_file = inr pages ->
      outcome (extract_text_from_pdf W pdf_file) = inr out ->
      Exists (has_text W) pages ->
      endswith out nl = true).
Proof.
  assert (Hstep : forall text p t,
      extract_text W p = inr (Some t) -> t <> [] ->
      page_step W text p
      = ([EvExtractText], inr (text ++ join nl (clean_lines (split LF t)) ++ nl))).
  { intros text p t Hp Ht. rewrite (page_step_ok text _ Hp).
    unfold contribution. rewrite Hp. destruct t as [|c s]; [congruence|reflexivity]. }
  split; [exact Hstep|split].
  - intros text p t Hp Ht Hnone. rewrite (Hstep text p t Hp Ht), Hnone. reflexivity.
  - intros pdf_file pages out Hr Hout Hex.
    pose proof (extract_returns _ Hr Hout) as Ha.
    rewrite (extract_ok _ Hr Ha) in Hout. simpl in Hout.
    injection Hout as <-.
    apply endswith_true_iff.
    destruct (concat_ends_with_newline (l := map (contribution W) pages)) as [Hnil|Hends].
    + apply Forall_forall. intros x Hx. apply in_map_iff in Hx as (p & <- & _).
      apply contribution_shape.
    + exfalso. apply Exists_exists in Hex as (p & Hin & Hp).
      destruct (has_text_contribution Hp) as [r Hc].
      assert (Hin' : In (contribution W p) (map (contribution W) pages)) by now apply in_map.
      apply in_split in Hin' as (l1 & l2 & Hl). rewrite Hl in Hnil.
      rewrite concat_app in Hnil. simpl in Hnil.
      apply app_eq_nil in Hnil as [_ Hnil].
      apply app_eq_nil in Hnil as [Hnil _].
      rewrite Hc in Hnil. now destruct r.
    + exact Hends.
Qed.

End Extractor.

(** ** The handler *)

Lemma str_eqb_eq (a b : pystr) : str_eqb a b = true <-> a = b.
Proof. unfold str_eqb. destruct (list_eq_dec N.eq_dec a b); split; congruence. Qed.

Lemma option_eq_dec_pystr (a b : option pystr) : {a = b} + {a <> b}.
Proof. decide equality. apply (list_eq_dec N.eq_dec). Qed.

Lemma not_pdf_true_iff (resume_pdf : UploadFile) :
  not_pdf resume_pdf = true <->
  content_type resume_pdf <> Some (lit "application/pdf").
Proof.
  unfold not_pdf. destruct (content_type resume_pdf) as [t|].
  - rewrite negb_true_iff. split.
    + intros H E. injection E as ->.
      assert (str_eqb (lit "application/pdf") (lit "application/pdf") = true)
        by now apply str_eqb_eq.
      congruence.
    + intros H. destruct (str_eqb t (lit "application/pdf")) eqn:E; [|reflexivity].
      apply str_eqb_eq in E. congruence.
  - split; [discriminate|reflexivity].
Qed.

Lemma not_pdf_false_iff (resume_pdf : UploadFile) :
  not_pdf resume_pdf = false <->
  content_type resume_pdf = Some (lit "application/pdf").
Proof.
  destruct (not_pdf resume_pdf) eqn:E.
  - apply not_pdf_true_iff in E. split; [discriminate|congruence].
  - split; [intros _|reflexivity].
    destruct (option_eq_dec_pystr (content_type resume_pdf) (Some (lit "application/pdf")))
      as [H|H]; [exact H|].
    apply not_pdf_true_iff in H. congruence.
Qed.

Section Handler.

Variable W : World.

(** *** The stages *)

Lemma analyze_resume_not_pdf company_name job_description resume_pdf :
  not_pdf resume_pdf = true ->
  analyze_resume W company_name job_description resume_pdf
  = ([], inl (HTTPException 400 invalid_file_type)).
Proof. unfold analyze_resume, validate_upload. now intros ->. Qed.

Lemma analyze_resume_pdf company_name job_description resume_pdf :
  not_pdf resume_pdf = false ->
  analyze_resume W company_name job_description resume_pdf
  = (resume_text <- read_resume W resume_pdf ;;
     ask_model W (build_prompt W company_name job_description resume_text)).
Proof.
  unfold analyze_resume, validate_upload. intros ->. unfold ret, bind at 1.
  now destruct (bind _ _).
Qed.

(** The extractor raises nothing but its own 400. *)
Lemma extract_raises (pdf_file : bytes) (x : pyexn) :
  outcome (extract_text_from_pdf W pdf_file) = inl x ->
  exists e, x = HTTPException 400 (lit "Error reading PDF: " ++ str W e).
Proof.
  unfold extract_text_from_pdf, call, bind, try_except, raise.
  destruct (PdfReader W pdf_file) as [e|pages]; simpl.
  - intros H. injection H as <-. now exists e.
  - destruct (for_pages W pages []) as [t [e|o]]; simpl; [|discriminate].
    intros H. injection H as <-. now exists e.
Qed.

Lemma read_resume_ok (resume_pdf : UploadFile) (pdf_content : bytes) (text : pystr) :
  read resume_pdf = inr pdf_content ->
  outcome (extract_text_from_pdf W pdf_content) = inr text ->
  read_resume W resume_pdf
  = (EvRead :: trace (extract_text_from_pdf W pdf_content), inr text).
Proof.
  intros Hr. unfold read_resume, call, bind, try_except, outcome, trace. rewrite Hr.
  destruct (extract_text_from_pdf W pdf_content) as [t o]. simpl. now intros ->.
Qed.

Lemma read_resume_raises (resume_pdf : UploadFile) (pdf_content : bytes) (x : pyexn) :
  read resume_pdf = inr pdf_content ->
  outcome (extract_text_from_pdf W pdf_content) = inl x ->
  read_resume W resume_pdf
  = (EvRead :: trace (extract_text_from_pdf W pdf_content),
     inl (HTTPException 500 (lit "Failed to process PDF: " ++ str W x))).
Proof.
  intros Hr. unfold read_resume, call, bind, try_except, raise, outcome, trace.
  rewrite Hr. destruct (extract_text_from_pdf W pdf_content) as [t o]. simpl.
  intros ->. now rewrite app_nil_r.
Qed.

Lemma ask_model_call_raises (prompt : pystr) (e : pyexn) :
  generate_content W MODEL prompt = inl e ->
  ask_model W prompt = ([EvGenerateContent MODEL prompt], inl (model_handler W e)).
Proof.
  intros H. unfold ask_model, call, bind, try_except. rewrite H.
  unfold model_handler. destruct e; reflexivity.
Qed.

Lemma ask_model_parse (prompt raw : pystr) :
  generate_content W MODEL prompt = inr (Some raw) ->
  ask_model W prompt
  = ([EvGenerateContent MODEL prompt; EvJsonLoads (clean_response raw)],
     match json_loads W (clean_response raw) with
     | inl e => inl (model_handler W e)
     | inr v => inr v
     end).
Proof.
  intros H. unfold ask_model, call, bind, try_except. rewrite H. simpl.
  unfold model_handler.
  destruct (json_loads W (clean_response raw)) as [[c d|m|m]|v]; reflexivity.
Qed.

(** Once the upload is a PDF and its text is read, the answer is that of
    step 5. *)
Lemma analyze_resume_ask company_name job_description resume_pdf t resume_text :
  content_type resume_pdf = Some pdf_type ->
  read_resume W resume_pdf = (t, inr resume_text) ->
  analyze_resume W company_name job_description resume_pdf
  = (t ++ trace (ask_model W (build_prompt W company_name job_description resume_text)),
     outcome (ask_model W (build_prompt W company_name job_description resume_text))).
Proof.
  intros Hc Hr. apply not_pdf_false_iff in Hc.
  rewrite (analyze_resume_pdf _ _ _ Hc). unfold bind. rewrite Hr.
  now destruct (ask_model W _).
Qed.

(** *** Status codes *)

(** C6.  A declared content type other than [application/pdf] (or none) is
    answered with 400 and the only-PDF message, and no outside call is made
    before it: the upload is not read and no PDF is parsed. *)
Theorem non_pdf_rejected company_name job_description resume_pdf :
  content_type resume_pdf <> Some pdf_type ->
  analyze_resume W company_name job_description resume_pdf
  = ([], inl (HTTPException 400 invalid_file_type))
  /\ http_status (outcome (analyze_resume W company_name job_description resume_pdf)) = 400%Z
  /\ trace (analyze_resume W company_name job_description resume_pdf) = []
  /\ contains invalid_file_type (lit "Only PDF files (application/pdf) are supported") = true.
Proof.
  intros H. apply not_pdf_true_iff in H.
  rewrite (analyze_resume_not_pdf _ _ _ H). repeat split.
Qed.

(** C1, what the code does.  When the upload is a PDF by its declared type
    and the extractor raises, the handler answers 500: the extractor's own
    400 is caught by the [except Exception] of step 2 and wrapped. *)
Theorem unreadable_pdf_status company_name job_description resume_pdf pdf_content x :
  content_type resume_pdf = Some pdf_type ->
  read resume_pdf = inr pdf_content ->
  outcome (extract_text_from_pdf W pdf_content) = inl x ->
  http_status (outcome (analyze_resume W company_name job_description resume_pdf)) = 500%Z
  /\ exists e,
      outcome (analyze_resume W company_name job_description resume_pdf)
      = inl (HTTPException 500
               (lit "Failed to process PDF: "
                ++ str W (HTTPException 400 (lit "Error reading PDF: " ++ str W e)))).
Proof.
  intros Hc Hr Hx. apply not_pdf_false_iff in Hc.
  rewrite (analyze_resume_pdf _ _ _ Hc), (read_resume_raises _ Hr Hx).
  destruct (extract_raises _ Hx) as [e ->]. simpl. split; [reflexivity|now exists e].
Qed.

(** C3 (as amended).  When the JSON parser rejects the cleaned model output
    with a [JSONDecodeError], the handler answers 500 with the fixed detail;
    the parser's exception and its message appear nowhere in the answer. *)
Theorem invalid_json_gives_500
    company_name job_description resume_pdf t resume_text raw msg :
  content_type resume_pdf = Some pdf_type ->
  read_resume W resume_pdf = (t, inr resume_text) ->
  generate_content W MODEL (build_prompt W company_name job_description resume_text)
  = inr (Some raw) ->
  json_loads W (clean_response raw) = inl (JSONDecodeError msg) ->
  outcome (analyze_resume W company_name job_description resume_pdf)
  = inl (HTTPException 500 invalid_json_format)
  /\ http_status (outcome (analyze_resume W company_name job_description resume_pdf)) = 500%Z.
Proof.
  intros Hc Hr Hg Hj.
  rewrite (analyze_resume_ask _ _ _ Hc Hr), (ask_model_parse _ Hg), Hj.
  split; reflexivity.
Qed.

(** C5 (as amended).  When the model call raises an exception that is not a
    JSON decode error, the handler answers 503 and the detail is the fixed
    prefix followed by the text of that exception. *)
Theorem model_failure_gives_503
    company_name job_description resume_pdf t resume_text e :
  content_type resume_pdf = Some pdf_type ->
  read_resume W resume_pdf = (t, inr resume_text) ->
  generate_content W MODEL (build_prompt W company_name job_description resume_text)
  = inl e ->
  (forall msg, e <> JSONDecodeError msg) ->
  outcome (analyze_resume W company_name job_description resume_pdf)
  = inl (HTTPException 503 (lit "AI Service Unavailable: " ++ str W e))
  /\ http_status (outcome (analyze_resume W company_name job_description resume_pdf)) = 503%Z
  /\ contains (lit "AI Service Unavailable: " ++ str W e) (str W e) = true.
Proof.
  intros Hc Hr Hg Hne.
  rewrite (analyze_resume_ask _ _ _ Hc Hr), (ask_model_call_raises _ Hg).
  assert (Hh : model_handler W e
               = HTTPException 503 (lit "AI Service Unavailable: " ++ str W e)).
  { unfold model_handler. destruct e as [c d|m|m]; try reflexivity.
    now destruct (Hne m). }
  rewrite Hh. split; [reflexivity|split; [reflexivity|]].
  rewrite <- (app_nil_r (str W e)) at 1. apply contains_app.
Qed.

End Handler.

(** ** The prompt *)

(** Finds the sought part among the parts of a concatenation. *)
Ltac find_part :=
  lazymatch goal with
  | |- contains (_ ++ ?p ++ _) ?p = true => apply contains_app
  | |- contains (_ ++ _ ++ _) _ = true => rewrite app_assoc; find_part
  end.

Section Prompt.

Variable W : World.

(** C7.  The prompt is the template with, in this order, the serialization
    of the first 50 context entries (a prefix of the list, in its order),
    the company name or [Not Specified], the job description and the resume
    text put in as they are; the text after the resume holds the three
    markers. *)
Theorem prompt_contents
    (company_name : option pystr) (job_description resume_text : pystr) :
  let prompt := build_prompt W company_name job_description resume_text in
  let context := firstn 50 (JOBS_CONTEXT W) in
  prompt = prompt_intro ++ json_dumps W context
           ++ prompt_job_header ++ company_or_placeholder company_name
           ++ prompt_description_header ++ job_description
           ++ prompt_resume_header ++ resume_text
           ++ output_instructions
  /\ (exists rest, JOBS_CONTEXT W = context ++ rest)
  /\ length context = Nat.min 50 (length (JOBS_CONTEXT W))
  /\ contains prompt (json_dumps W context) = true
  /\ contains prompt job_description = true
  /\ contains prompt resume_text = true
  /\ contains prompt (lit "Company: " ++ company_or_placeholder company_name ++ nl) = true
  /\ (company_name = None ->
      contains prompt (lit "Company: Not Specified" ++ nl) = true)
  /\ contains output_instructions (lit "<<<") = true
  /\ contains output_instructions (lit "~~~") = true
  /\ contains output_instructions (lit "+++") = true
  /\ contains prompt (lit "<<<") = true
  /\ contains prompt (lit "~~~") = true
  /\ contains prompt (lit "+++") = true.
Proof.
  intros prompt context.
  assert (Hshape : prompt = prompt_intro ++ json_dumps W context
           ++ prompt_job_header ++ company_or_placeholder company_name
           ++ prompt_description_header ++ job_description
           ++ prompt_resume_header ++ resume_text
           ++ output_instructions) by reflexivity.
  assert (Hcompany :
    contains prompt (lit "Company: " ++ company_or_placeholder company_name ++ nl) = true).
  { rewrite Hshape. apply contains_true_iff.
    exists (prompt_intro ++ json_dumps W context
            ++ concat [nl; nl; lit "    **Specific Job Description:**"; nl; lit "    "]).
    exists (concat [lit "    Description:"; nl; lit "    "] ++ job_description
            ++ prompt_resume_header ++ resume_text ++ output_instructions).
    change prompt_job_header
      with (concat [nl; nl; lit "    **Specific Job Description:**"; nl; lit "    "]
            ++ lit "Company: ").
    change prompt_description_header
      with (nl ++ concat [lit "    Description:"; nl; lit "    "]).
    now rewrite <- !app_assoc. }
  assert (Hm1 : contains output_instructions (lit "<<<") = true) by (vm_compute; reflexivity).
  assert (Hm2 : contains output_instructions (lit "~~~") = true) by (vm_compute; reflexivity).
  assert (Hm3 : contains output_instructions (lit "+++") = true) by (vm_compute; reflexivity).
  assert (Htail : forall m, contains output_instructions m = true ->
                            contains prompt m = true).
  { intros m Hm. rewrite Hshape.
    rewrite <- (app_nil_r output_instructions).
    rewrite !app_assoc. rewrite <- app_assoc. now apply contains_in_part. }
  split; [exact Hshape|].
  split; [exists (skipn 50 (JOBS_CONTEXT W)); symmetry; apply firstn_skipn|].
  split; [apply length_firstn|].
  split; [rewrite Hshape; find_part|].
  split; [rewrite Hshape; find_part|].
  split; [rewrite Hshape; find_part|].
  split; [exact Hcompany|].
  split; [intros ->; exact Hcompany|].
  repeat split; auto.
Qed.

End Prompt.

(** ** The response normalizer *)

Lemma fence_eq : fence = [backtick; backtick; backtick].
Proof. reflexivity. Qed.

Lemma fence_json_eq : fence_json = fence ++ lit "json".
Proof. reflexivity. Qed.

Lemma startswith_fence_json (s : pystr) :
  startswith s fence_json = true -> startswith s fence = true.
Proof.
  intros H. apply startswith_true_iff in H as [r ->].
  rewrite fence_json_eq, <- app_assoc. apply startswith_app.
Qed.

Lemma strip_guarded (c d : N) (s : pystr) :
  isspace c = false -> isspace d = false ->
  strip (c :: s ++ [d]) = c :: s ++ [d].
Proof.
  intros Hc Hd. unfold strip. rewrite lstrip_nonspace by exact Hc.
  change (c :: s ++ [d]) with ((c :: s) ++ [d]).
  now apply rstrip_snoc_nonspace.
Qed.

Lemma strip_fenced (s : pystr) : strip (fenced s) = fenced s.
Proof.
  unfold fenced.
  replace (fence_json ++ s ++ fence)
    with (backtick :: (([backtick; backtick] ++ lit "json") ++ s ++ [backtick; backtick])
                   ++ [backtick]).
  - now apply strip_guarded.
  - rewrite <- !app_assoc. reflexivity.
Qed.

(** A string that starts with the fence keeps it when trimmed. *)
Lemma strip_keeps_fence (s : pystr) :
  startswith s fence = true -> startswith (strip s) fence = true.
Proof.
  intros H. apply startswith_true_iff in H as [r ->].
  unfold strip. rewrite fence_eq. simpl app.
  rewrite lstrip_nonspace by reflexivity.
  rewrite !rstrip_cons_nonspace by reflexivity.
  reflexivity.
Qed.

(** Without a fence of its own, the output is only trimmed. *)
Lemma clean_response_bare (s : pystr) :
  startswith (strip s) fence = false ->
  endswith (strip s) fence = false ->
  clean_response s = strip s.
Proof.
  intros H1 H2. unfold clean_response.
  destruct (startswith (strip s) fence_json) eqn:E.
  - apply startswith_fence_json in E. congruence.
  - rewrite H1, H2. apply strip_idem.
Qed.

(** With a fence put around it, the same text comes out. *)
Lemma clean_response_fenced (s : pystr) :
  startswith (strip s) fence = false ->
  clean_response (fenced s) = strip s.
Proof.
  intros H1. unfold clean_response. rewrite strip_fenced. unfold fenced.
  rewrite startswith_app.
  change (slice_from 7 (fence_json ++ s ++ fence)) with (s ++ fence).
  destruct (startswith (s ++ fence) fence) eqn:E.
  - (* the text is shorter than a fence and made of backticks *)
    assert (Hs : startswith s fence = false).
    { destruct (startswith s fence) eqn:F; [|reflexivity].
      apply strip_keeps_fence in F. congruence. }
    assert (Hr : slice_from 3 (s ++ fence) = s /\ (length s < 3)%nat).
    { rewrite fence_eq in E, Hs |- *. unfold slice_from.
      destruct s as [|c1 [|c2 [|c3 r]]];
        cbn [startswith app skipn length] in E, Hs |- *.
      - split; [reflexivity|lia].
      - apply andb_true_iff in E as [E _]. apply N.eqb_eq in E. subst c1.
        split; [reflexivity|lia].
      - apply andb_true_iff in E as [E1 E]. apply andb_true_iff in E as [E2 _].
        apply N.eqb_eq in E1, E2. subst c1 c2. split; [reflexivity|lia].
      - congruence. }
    destruct Hr as [-> Hlen].
    now rewrite (endswith_longer s fence) by exact Hlen.
  - rewrite endswith_app. change 3%nat with (length fence).
    now rewrite slice_to_minus_app.
Qed.

Section Normalizer.

Variable W : World.

(** C4 (as amended).  For a model output whose trimmed text neither starts
    nor ends with a fence marker, putting it in a json fence changes neither
    the text handed to the parser nor, so, the parsed result. *)
Theorem fenced_same_as_bare (s : pystr) :
  startswith (strip s) fence = false ->
  endswith (strip s) fence = false ->
  clean_response (fenced s) = clean_response s
  /\ normalize W (fenced s) = normalize W s.
Proof.
  intros H1 H2.
  assert (H : clean_response (fenced s) = clean_response s).
  { now rewrite clean_response_fenced, clean_response_bare. }
  split; [exact H|]. unfold normalize. now rewrite H.
Qed.

(** The fence may stand on lines of its own. *)
Lemma fenced_lines_same_as_bare (s : pystr) :
  startswith (strip s) fence = false ->
  endswith (strip s) fence = false ->
  normalize W (fenced (nl ++ s ++ nl)) = normalize W s.
Proof.
  intros H1 H2. unfold normalize.
  assert (Hs : strip (nl ++ s ++ nl) = strip s).
  { unfold strip. change (lstrip (nl ++ s ++ nl)) with (lstrip (s ++ nl)).
    unfold rstrip at 1. 
    destruct (lstrip_head s) as [E|(c & r & E & Hc)].
    - assert (lstrip (s ++ nl) = []) as ->.
      { clear -E. induction s as [|d s IH]; [reflexivity|]. simpl in *.
        destruct (isspace d); [now apply IH|discriminate]. }
      now rewrite E.
    - assert (lstrip (s ++ nl) = lstrip s ++ nl) as ->.
      { clear -E. revert E. induction s as [|d s IH]; [discriminate|]. simpl.
        destruct (isspace d); [exact IH|reflexivity]. }
      rewrite rev_app_distr. reflexivity. }
  rewrite clean_response_fenced by now rewrite Hs.
  rewrite clean_response_bare by assumption. now rewrite Hs.
Qed.

End Normalizer.

End MainFacts.

(* ================================================================== *)
(** * Facts about convert_jobs.py *)
(* ================================================================== *)

Module ConvertJobsFacts.

Import ConvertJobs Terms HandlerTerms PyFacts.

Example re_split_ex :
  re_split (bullet ++ lit " Python" ++ nl ++ nl ++ bullet ++ lit " SQL" ++ nl)
  = [[]; lit " Python"; lit " SQL"; []].
Proof. reflexivity. Qed.

Lemma is_delim_true_iff (c : N) :
  is_delim c = true <-> c = 10%N \/ c = 13%N \/ c = 8226%N \/ c = 183%N.
Proof.
  unfold is_delim. rewrite !orb_true_iff, !N.eqb_eq. tauto.
Qed.

Lemma is_marker_true_iff (c : N) :
  is_marker c = true <-> c = 45%N \/ c = 42%N \/ c = 10146%N \/ c = 10147%N.
Proof.
  unfold is_marker. rewrite !orb_true_iff, !N.eqb_eq. tauto.
Qed.

Lemma re_split_nonempty (s : pystr) : re_split s <> [].
Proof.
  induction s as [|c s IH]; simpl; [discriminate|].
  destruct (is_delim c).
  - destruct s as [|d s']; [discriminate|].
    destruct (is_delim d); [exact IH|discriminate].
  - destruct (re_split s); discriminate.
Qed.

(** The fields, put together again, are the description without its
    delimiters: the split loses nothing else and keeps the order. *)
Lemma re_split_concat (s : pystr) :
  concat (re_split s) = filter (fun c => negb (is_delim c)) s.
Proof.
  induction s as [|c s IH]; [reflexivity|].
  cbn [re_split filter]. destruct (is_delim c) eqn:Ec; cbn [negb].
  - destruct s as [|d s']; [reflexivity|].
    destruct (is_delim d); exact IH.
  - pose proof (re_split_nonempty s) as Hne.
    destruct (re_split s) as [|f fs]; [congruence|].
    simpl in *. now rewrite IH.
Qed.

(** No field holds a delimiter. *)
Lemma re_split_fields (s : pystr) :
  Forall (fun f => forallb (fun c => negb (is_delim c)) f = true) (re_split s).
Proof.
  induction s as [|c s IH]; [repeat constructor|].
  cbn [re_split]. destruct (is_delim c) eqn:Ec.
  - destruct s as [|d s']; [repeat constructor|].
    destruct (is_delim d); [exact IH|now constructor].
  - destruct (re_split s) as [|f fs]; [repeat constructor; simpl; now rewrite Ec|].
    inversion IH as [|? ? Hf Hfs]; subst. constructor; [|exact Hfs].
    simpl. now rewrite Ec, Hf.
Qed.

Lemma skill_step_eq (skills : list pystr) (line : pystr) :
  skill_step skills line
  = if long_enough line then skills ++ [cleaned line] else skills.
Proof. unfold skill_step, long_enough, cleaned. now rewrite Z.gtb_ltb. Qed.

Lemma skills_loop (lines : list pystr) :
  forall skills,
    fold_left skill_step lines skills
    = skills ++ map cleaned (filter long_enough lines).
Proof.
  induction lines as [|line lines IH]; intros skills; simpl.
  - now rewrite app_nil_r.
  - rewrite IH, skill_step_eq.
    destruct (long_enough line); [now rewrite <- app_assoc|reflexivity].
Qed.

(** ** The split, field by field *)

(** A string without a delimiter is one field. *)
Lemma re_split_one_line (f : pystr) : one_line f = true -> re_split f = [f].
Proof.
  induction f as [|c f IH]; [reflexivity|].
  unfold one_line. cbn [forallb]. rewrite andb_true_iff, negb_true_iff.
  intros [Hc Hf]. cbn [re_split]. rewrite Hc. now rewrite (IH Hf).
Qed.

Lemma re_split_delims (d d' : N) (s : pystr) :
  is_delim d = true -> is_delim d' = true ->
  re_split (d :: d' :: s) = re_split (d' :: s).
Proof. intros Hd Hd'. simpl. now rewrite Hd, Hd'. Qed.

(** A run of delimiters, however long, ends one field and starts the
    next. *)
Lemma re_split_run (run rest : pystr) :
  run <> [] -> forallb is_delim run = true -> starts_field rest ->
  re_split (run ++ rest) = [] :: re_split rest.
Proof.
  induction run as [|d run IH]; [congruence|].
  intros _ Hrun Hrest. cbn [forallb] in Hrun.
  apply andb_true_iff in Hrun. destruct Hrun as [Hd Hrun].
  destruct run as [|d' run'].
  - cbn [app re_split]. rewrite Hd.
    destruct rest as [|c rest']; [reflexivity|].
    cbn [starts_field] in Hrest. now rewrite Hrest.
  - change ((d :: d' :: run') ++ rest) with (d :: d' :: (run' ++ rest)).
    pose proof Hrun as Hd'. cbn [forallb] in Hd'.
    apply andb_true_iff in Hd'. destruct Hd' as [Hd' _].
    rewrite re_split_delims by assumption.
    apply IH; [discriminate|exact Hrun|exact Hrest].
Qed.

Lemma re_split_field (f run rest : pystr) :
  one_line f = true -> run <> [] -> forallb is_delim run = true ->
  starts_field rest ->
  re_split (f ++ run ++ rest) = f :: re_split rest.
Proof.
  intros Hf Hne Hrun Hrest. induction f as [|c f IH].
  - exact (@re_split_run run rest Hne Hrun Hrest).
  - unfold one_line in Hf. cbn [forallb] in Hf.
    apply andb_true_iff in Hf. destruct Hf as [Hc Hf].
    apply negb_true_iff in Hc.
    change ((c :: f) ++ run ++ rest) with (c :: (f ++ run ++ rest)).
    cbn [re_split]. rewrite Hc. now rewrite (IH Hf).
Qed.

(** The delimiters a string starts with, and what follows them. *)
Lemma leading_run (s : pystr) :
  exists run rest,
    s = run ++ rest /\ forallb is_delim run = true /\ starts_field rest.
Proof.
  induction s as [|c s (run & rest & Hs & Hrun & Hrest)].
  - exists [], []. repeat split.
  - destruct (is_delim c) eqn:Ec.
    + exists (c :: run), rest. split; [now rewrite Hs|]. split; [|exact Hrest].
      cbn [forallb]. now rewrite Ec, Hrun.
    + exists [], (c :: s). split; [reflexivity|]. split; [reflexivity|exact Ec].
Qed.

(** A string is one field, or a first field, a run of delimiters and a
    shorter rest. *)
Lemma first_field (s : pystr) :
  one_line s = true
  \/ exists f run rest,
       s = f ++ run ++ rest /\ one_line f = true /\ run <> []
       /\ forallb is_delim run = true /\ starts_field rest
       /\ (length rest < length s)%nat.
Proof.
  induction s as [|c s IH]; [now left|].
  destruct (is_delim c) eqn:Ec.
  - right. destruct (leading_run s) as (run & rest & Hs & Hrun & Hrest).
    exists [], (c :: run), rest. split; [now rewrite Hs|].
    split; [reflexivity|]. split; [discriminate|].
    split; [cbn [forallb]; now rewrite Ec, Hrun|]. split; [exact Hrest|].
    rewrite Hs. cbn [length]. rewrite length_app. lia.
  - destruct IH as [Hs|(f & run & rest & Hs & Hf & Hne & Hrun & Hrest & Hlen)].
    + left. unfold one_line in *. cbn [forallb]. now rewrite Ec, Hs.
    + right. exists (c :: f), run, rest. split; [now rewrite Hs|].
      split; [unfold one_line in *; cbn [forallb]; now rewrite Ec, Hf|].
      split; [exact Hne|]. split; [exact Hrun|]. split; [exact Hrest|].
      cbn [length]. lia.
Qed.

(** The two equations of the split leave no choice: a function that has
    them is [re_split].  One that only deletes the delimiters, or that cuts
    at every delimiter of a run, has not both. *)
Lemma re_split_determined (g : pystr -> list pystr) :
  (forall f, one_line f = true -> g f = [f]) ->
  (forall f run rest,
      one_line f = true -> run <> [] -> forallb is_delim run = true ->
      starts_field rest -> g (f ++ run ++ rest) = f :: g rest) ->
  forall s, g s = re_split s.
Proof.
  intros H1 H2 s.
  remember (length s) as n eqn:Hn. revert s Hn.
  induction n as [n IH] using lt_wf_ind. intros s Hn.
  destruct (first_field s)
    as [Hs|(f & run & rest & Hs & Hf & Hne & Hrun & Hrest & Hlen)].
  - now rewrite H1, re_split_one_line.
  - rewrite Hs, H2, re_split_field by assumption.
    f_equal. apply (IH (length rest)); [lia|reflexivity].
Qed.

(** C9 (as amended).  An empty description gives [N/A].  Any other is
    split at the runs of line feeds, carriage returns, bullets and middle
    dots: a string without any of them is one field, and a field, a run of
    them and a rest split into that field and the fields of the rest.  The
    fields whose trimmed length exceeds 3 are kept in their order; each is
    trimmed and, when it then starts with a dash, a star or one of the two
    arrowheads, loses that marker and the blanks after it; the first 10 of
    them, at most, are joined with a comma and a space. *)
Theorem extract_skills_heuristic_spec :
  extract_skills_heuristic [] = lit "N/A"
  /\ (forall f, one_line f = true -> re_split f = [f])
  /\ (forall f run rest,
        one_line f = true -> run <> [] -> forallb is_delim run = true ->
        starts_field rest ->
        re_split (f ++ run ++ rest) = f :: re_split rest)
  /\ (forall c, is_delim c = true
                <-> c = 10%N \/ c = 13%N \/ c = 8226%N \/ c = 183%N)
  /\ (forall c, is_marker c = true
                <-> c = 45%N \/ c = 42%N \/ c = 10146%N \/ c = 10147%N)
  /\ (forall line c rest,
        strip line = c :: rest ->
        cleaned line = if is_marker c then lstrip rest else c :: rest)
  /\ forall (c : N) (s : pystr),
      let description := c :: s in
      let fields := re_split description in
      let kept := filter long_enough fields in
      extract_skills_heuristic description
      = join (lit ", ") (firstn 10 (map cleaned kept))
      /\ (length (firstn 10 (map cleaned kept)) <= 10)%nat
      /\ (forall line, In line kept <-> In line fields /\ (3 < len (strip line))%Z)
      /\ concat fields = filter (fun c => negb (is_delim c)) description
      /\ Forall (fun f => forallb (fun c => negb (is_delim c)) f = true) fields.
Proof.
  split; [reflexivity|].
  split; [exact (@re_split_one_line)|].
  split; [exact (@re_split_field)|].
  split; [exact is_delim_true_iff|].
  split; [exact is_marker_true_iff|].
  split; [intros line c rest H; unfold cleaned; now rewrite H|].
  intros c s description fields kept.
  split; [|split; [|split; [|split]]].
  - unfold extract_skills_heuristic, description.
    now rewrite skills_loop.
  - apply firstn_le_length.
  - intros line. unfold kept. rewrite filter_In. unfold long_enough.
    now rewrite Z.ltb_lt.
  - apply re_split_concat.
  - apply re_split_fields.
Qed.

(** The two equations of C9 at a description of two lines, the second
    after a line feed and a bullet. *)
Lemma extract_skills_heuristic_spec_witness :
  re_split (lit "Python dev" ++ (nl ++ bullet) ++ lit " SQL admin")
  = lit "Python dev" :: re_split (lit " SQL admin")
  /\ re_split (lit " SQL admin") = [lit " SQL admin"].
Proof.
  destruct extract_skills_heuristic_spec as (_ & H1 & H2 & _).
  split.
  - apply H2; [reflexivity|discriminate|reflexivity|reflexivity].
  - apply H1. reflexivity.
Defined.

(** C9, the claim as written, fails where a kept fragment has blanks around
    it or a list marker before it: the code joins the cleaned fragments,
    not the fragments of the split. *)
Lemma marked_fragment_is_cleaned :
  re_split MoreSample.marked_description
  = [lit "- Git and more"; lit "  Python dev "]
  /\ extract_skills_heuristic MoreSample.marked_description
     = lit "Git and more, Python dev"
  /\ skills_as_claimed MoreSample.marked_description
     = lit "- Git and more,   Python dev "
  /\ extract_skills_heuristic MoreSample.marked_description
     <> skills_as_claimed MoreSample.marked_description.
Proof. vm_compute. repeat split; discriminate. Qed.

(** A description with bullets: [SQL] is too short to be kept, and the
    dash before [Git] is removed. *)
Example extract_skills_ex :
  extract_skills_heuristic
    (bullet ++ lit " Python" ++ nl ++ bullet ++ lit " SQL" ++ nl ++ lit "- Git and more")
  = lit "Python, Git and more".
Proof. reflexivity. Qed.

(** Of 12 long fields the first 10 are joined. *)
Example extract_skills_ten :
  extract_skills_heuristic
    (join nl (map (fun n => lit "skill" ++ [N.of_nat (65 + n)]) (seq 0 12)))
  = lit "skillA, skillB, skillC, skillD, skillE, skillF, skillG, skillH, skillI, skillJ".
Proof. reflexivity. Qed.

End ConvertJobsFacts.

(* ================================================================== *)
(** * The theorems at work in the sample world *)
(* ================================================================== *)

Module SampleFacts.

Import Main Terms Sample PyFacts MainFacts.

(** ** The extractor *)

Example extract_resume_file :
  outcome (extract_text_from_pdf (world answers_object) resume_file)
  = inr (lit "John Doe" ++ nl ++ lit "5 years experience in Python" ++ nl ++ nl).
Proof. vm_compute. reflexivity. Qed.

(** C8 at the scan. *)
Lemma extract_no_text_witness :
  extract_text_from_pdf (world answers_object) scan_file
  = (EvPdfReader scan_file :: repeat EvExtractText 2, inr []).
Proof.
  apply (@extract_no_text (world answers_object) scan_file
           [inr None; inr (Some [])]).
  - reflexivity.
  - constructor; [left; reflexivity|].
    constructor; [right; reflexivity|constructor].
Defined.

(** C10 at the resume: its third page is all rules, every line of it is
    dropped and it still adds its newline; the text returned ends with it. *)
Lemma page_adds_trailing_newline_witness :
  page_step (world answers_object) (lit "John Doe" ++ nl) (inr (Some rule_page))
  = ([EvExtractText], inr (lit "John Doe" ++ nl ++ nl))
  /\ endswith (lit "John Doe" ++ nl ++ lit "5 years experience in Python" ++ nl ++ nl) nl
     = true.
Proof.
  destruct (@page_adds_trailing_newline (world answers_object)) as (_ & Hdrop & Hend).
  split.
  - apply (Hdrop (lit "John Doe" ++ nl) (inr (Some rule_page)) rule_page).
    + reflexivity.
    + discriminate.
    + vm_compute. reflexivity.
  - apply (Hend resume_file [inr (Some resume_page); inr None; inr (Some rule_page)]).
    + reflexivity.
    + vm_compute. reflexivity.
    + apply Exists_cons_hd. exists resume_page. split; [reflexivity|discriminate].
Defined.

(** ** The handler *)

Example analyze_ok :
  analyze_resume (world answers_object) acme job (upload "application/pdf" resume_file)
  = ([EvRead; EvPdfReader resume_file; EvExtractText; EvExtractText; EvExtractText;
      EvGenerateContent MODEL
        (build_prompt (world answers_object) acme job
           (lit "John Doe" ++ nl ++ lit "5 years experience in Python" ++ nl ++ nl));
      EvJsonLoads (lit "{}")],
     inr (lit "{}")).
Proof. vm_compute. reflexivity. Qed.

(** C6 at a Word document. *)
Lemma non_pdf_rejected_witness :
  analyze_resume (world answers_object) acme job (upload "application/msword" resume_file)
  = ([], inl (HTTPException 400 invalid_file_type))
  /\ http_status (outcome (analyze_resume (world answers_object) acme job
                             (upload "application/msword" resume_file))) = 400%Z
  /\ trace (analyze_resume (world answers_object) acme job
              (upload "application/msword" resume_file)) = []
  /\ contains invalid_file_type (lit "Only PDF files (application/pdf) are supported") = true.
Proof.
  apply (@non_pdf_rejected (world answers_object) acme job
           (upload "application/msword" resume_file)).
  discriminate.
Defined.

(** C1 at the file that is no PDF: the reader raises, and the answer is 500
    with the extractor's 400 quoted inside the detail. *)
Lemma unreadable_pdf_status_witness :
  http_status (outcome (analyze_resume (world answers_object) acme job
                          (upload "application/pdf" broken_file))) = 500%Z
  /\ outcome (analyze_resume (world answers_object) acme job
                (upload "application/pdf" broken_file))
     = inl (HTTPException 500
              (lit "Failed to process PDF: 400: Error reading PDF: Stream has ended unexpectedly")).
Proof.
  destruct (@unreadable_pdf_status (world answers_object) acme job
              (upload "application/pdf" broken_file) broken_file
              (HTTPException 400 (lit "Error reading PDF: Stream has ended unexpectedly")))
    as [Hstatus _].
  - reflexivity.
  - reflexivity.
  - vm_compute. reflexivity.
  - split; [exact Hstatus|]. vm_compute. reflexivity.
Defined.

(** C3 at an answer in prose. *)
Lemma invalid_json_gives_500_witness :
  outcome (analyze_resume (world answers_prose) acme job (upload "application/pdf" resume_file))
  = inl (HTTPException 500 invalid_json_format)
  /\ http_status (outcome (analyze_resume (world answers_prose) acme job
                             (upload "application/pdf" resume_file))) = 500%Z.
Proof.
  apply (@invalid_json_gives_500 (world answers_prose) acme job
           (upload "application/pdf" resume_file)
           [EvRead; EvPdfReader resume_file; EvExtractText; EvExtractText; EvExtractText]
           (lit "John Doe" ++ nl ++ lit "5 years experience in Python" ++ nl ++ nl)
           (lit "Sure! Here is the review.")
           (lit "Expecting value: line 1 column 1 (char 0)")).
  - reflexivity.
  - vm_compute. reflexivity.
  - reflexivity.
  - vm_compute. reflexivity.
Defined.

(** C3, the claim as written, fails on a text that is no JSON document and
    that the parser gives up on before it finds the error: on 2000 opening
    brackets it raises a [RecursionError], which the second [except] clause
    of step 5 takes, and the answer is 503 with the parser's own message. *)
Lemma unclosed_brackets_give_503 :
  clean_response MoreSample.unclosed = MoreSample.unclosed
  /\ startswith (clean_response MoreSample.unclosed) (lit "[") = true
  /\ contains (clean_response MoreSample.unclosed) (lit "]") = false
  /\ json_loads MoreSample.nesting_world (clean_response MoreSample.unclosed)
     = inl (Exception MoreSample.recursion_error)
  /\ outcome (analyze_resume MoreSample.nesting_world acme job
                (upload "application/pdf" resume_file))
     = inl (HTTPException 503
              (lit "AI Service Unavailable: " ++ MoreSample.recursion_error))
  /\ http_status (outcome (analyze_resume MoreSample.nesting_world acme job
                             (upload "application/pdf" resume_file))) <> 500%Z.
Proof. vm_compute. repeat split; discriminate. Qed.

(** C5 at a refused connection. *)
Lemma model_failure_gives_503_witness :
  outcome (analyze_resume (world network_down) acme job (upload "application/pdf" resume_file))
  = inl (HTTPException 503 (lit "AI Service Unavailable: Connection refused"))
  /\ http_status (outcome (analyze_resume (world network_down) acme job
                             (upload "application/pdf" resume_file))) = 503%Z
  /\ contains (lit "AI Service Unavailable: Connection refused") (lit "Connection refused")
     = true.
Proof.
  apply (@model_failure_gives_503 (world network_down) acme job
           (upload "application/pdf" resume_file)
           [EvRead; EvPdfReader resume_file; EvExtractText; EvExtractText; EvExtractText]
           (lit "John Doe" ++ nl ++ lit "5 years experience in Python" ++ nl ++ nl)
           (Exception (lit "Connection refused"))).
  - reflexivity.
  - vm_compute. reflexivity.
  - reflexivity.
  - discriminate.
Defined.

(** C5, the claim as written, fails when the exception the model call
    raises is a JSON decode error (the client met a body that is no JSON):
    the first [except] clause of step 5 takes it, and the answer is 500 with
    the invalid-format detail, without the text of the error. *)
Lemma model_json_error_gives_500 :
  generate_content (world body_not_json) MODEL
    (build_prompt (world body_not_json) acme job
       (lit "John Doe" ++ nl ++ lit "5 years experience in Python" ++ nl ++ nl))
  = inl (JSONDecodeError (lit "Expecting value: line 1 column 1 (char 0)"))
  /\ analyze_resume (world body_not_json) acme job (upload "application/pdf" resume_file)
     = ([EvRead; EvPdfReader resume_file; EvExtractText; EvExtractText; EvExtractText;
         EvGenerateContent MODEL
           (build_prompt (world body_not_json) acme job
              (lit "John Doe" ++ nl ++ lit "5 years experience in Python" ++ nl ++ nl))],
        inl (HTTPException 500 invalid_json_format))
  /\ http_status (outcome (analyze_resume (world body_not_json) acme job
                             (upload "application/pdf" resume_file))) <> 503%Z
  /\ contains invalid_json_format (lit "Expecting value") = false.
Proof. vm_compute. repeat split; discriminate. Qed.

(** ** The prompt *)

(** C7 at the end-to-end example: the prompt holds the job description, the
    resume text, the company and the three markers; of the 60 context
    entries of the sample world it holds the first 50, so [job49] and not
    [job50]. *)
Lemma prompt_contents_witness :
  contains example_prompt job = true
  /\ contains example_prompt example_resume_text = true
  /\ contains example_prompt (lit "Company: Acme Corp" ++ nl) = true
  /\ contains example_prompt (lit "<<<") = true
  /\ contains example_prompt (lit "~~~") = true
  /\ contains example_prompt (lit "+++") = true
  /\ contains example_prompt (lit "job48, job49]") = true
  /\ contains example_prompt (lit "job50") = false.
Proof.
  pose proof (@prompt_contents (world answers_object) acme job example_resume_text) as H.
  cbv zeta in H.
  destruct H as (_ & _ & _ & _ & Hjob & Hresume & Hcompany & _ & _ & _ & _ & H1 & H2 & H3).
  repeat split; try assumption; vm_compute; reflexivity.
Defined.

(** ** The normalizer *)

(** C4 at the empty object. *)
Lemma fenced_same_as_bare_witness :
  clean_response (fenced (lit "{}")) = clean_response (lit "{}")
  /\ normalize (world answers_object) (fenced (lit "{}"))
     = normalize (world answers_object) (lit "{}").
Proof.
  apply (@fenced_same_as_bare (world answers_object) (lit "{}")); reflexivity.
Defined.

(** C4, the claim as written, fails on an output that is fenced already:
    alone it is cleaned to the object inside; with one more fence around it
    only the outer markers go and the parser is handed the inner ones. *)
Lemma fenced_twice_differs :
  clean_response already_fenced = lit "{}"
  /\ clean_response (fenced already_fenced) = lit "json" ++ nl ++ lit "{}" ++ nl ++ lit "```"
  /\ normalize (world answers_object) already_fenced = inr (lit "{}")
  /\ normalize (world answers_object) (fenced already_fenced)
     = inl (JSONDecodeError (lit "Expecting value: line 1 column 1 (char 0)"))
  /\ normalize (world answers_object) (fenced already_fenced)
     <> normalize (world answers_object) already_fenced.
Proof. vm_compute. repeat split; discriminate. Qed.

End SampleFacts.

(* ================================================================== *)
(** * Further facts about the handler *)
(* ================================================================== *)

Module HandlerFacts.

Import Main Terms HandlerTerms PyFacts MainFacts.

Section Handler.

Variable W : World.

(** *** What each stage can give *)

Lemma for_pages_trace (pages : list (page W)) :
  forall text, exists n,
    (n <= length pages)%nat /\ trace (for_pages W pages text) = repeat EvExtractText n.
Proof.
  induction pages as [|p pages IH]; intros text; simpl.
  - exists 0%nat. split; [lia|reflexivity].
  - destruct (extract_text W p) as [e|r] eqn:E.
    + rewrite (@page_step_raises W text p e E). exists 1%nat. simpl. split; [lia|reflexivity].
    + rewrite (@page_step_ok W text p r E). unfold bind.
      destruct (IH (text ++ contribution W p)) as (n & Hn & Ht).
      destruct (for_pages W pages (text ++ contribution W p)) as [t o].
      simpl in Ht. subst t. exists (S n). split; [simpl; lia|reflexivity].
Qed.

Lemma extract_trace (pdf_file : bytes) :
  exists n, trace (extract_text_from_pdf W pdf_file)
            = EvPdfReader pdf_file :: repeat EvExtractText n.
Proof.
  unfold extract_text_from_pdf, call, bind, try_except, raise.
  destruct (PdfReader W pdf_file) as [e|pages].
  - now exists 0%nat.
  - destruct (for_pages_trace pages []) as (n & _ & Ht).
    destruct (for_pages W pages []) as [t [e|o]]; simpl in *; subst t; exists n.
    + now rewrite app_nil_r.
    + reflexivity.
Qed.


Lemma read_resume_trace (resume_pdf : UploadFile) :
  trace (read_resume W resume_pdf) = [EvRead]
  \/ exists pdf_file n, trace (read_resume W resume_pdf) = pdf_calls pdf_file n.
Proof.
  unfold read_resume, call, bind, try_except, raise, trace, pdf_calls.
  destruct (read resume_pdf) as [e|pdf_content]; simpl; [now left|].
  right. destruct (extract_trace pdf_content) as (n & Ht). unfold trace in Ht.
  destruct (extract_text_from_pdf W pdf_content) as [t [e|text]]; simpl in *;
    subst t; exists pdf_content, n; [now rewrite app_nil_r|reflexivity].
Qed.


Lemma ask_model_trace (prompt : pystr) :
  trace (ask_model W prompt) = [EvGenerateContent MODEL prompt]
  \/ exists s, trace (ask_model W prompt)
               = [EvGenerateContent MODEL prompt; EvJsonLoads s].
Proof.
  destruct (generate_content W MODEL prompt) as [e|[raw|]] eqn:G.
  - rewrite (@ask_model_call_raises W prompt e G). now left.
  - rewrite (@ask_model_parse W prompt raw G). right. now eexists.
  - unfold ask_model, call, bind, try_except, raise. rewrite G. now left.
Qed.

(** The handler, by the outcome of step 2. *)
Lemma analyze_resume_stops company_name job_description resume_pdf t x :
  content_type resume_pdf = Some pdf_type ->
  read_resume W resume_pdf = (t, inl x) ->
  analyze_resume W company_name job_description resume_pdf = (t, inl x).
Proof.
  intros Hc Hr. apply not_pdf_false_iff in Hc.
  rewrite (@analyze_resume_pdf W company_name job_description resume_pdf Hc).
  unfold bind. now rewrite Hr.
Qed.

Lemma read_resume_read_raises (resume_pdf : UploadFile) (e : pyexn) :
  read resume_pdf = inl e ->
  read_resume W resume_pdf
  = ([EvRead], inl (HTTPException 500 (lit "Failed to process PDF: " ++ str W e))).
Proof.
  intros H. unfold read_resume, call, bind, try_except, raise. now rewrite H.
Qed.

(** Step 2 returns a text only after the reader was called. *)
Lemma read_resume_returns (resume_pdf : UploadFile) (t : list event) (text : pystr) :
  read_resume W resume_pdf = (t, inr text) ->
  exists pdf_file n, t = pdf_calls pdf_file n.
Proof.
  intros H. destruct (read resume_pdf) as [e|pdf_content] eqn:R.
  - rewrite (read_resume_read_raises _ R) in H. discriminate.
  - destruct (extract_trace pdf_content) as (n & Ht).
    destruct (extract_text_from_pdf W pdf_content) as [t' [x|text']] eqn:E.
    + rewrite (@read_resume_raises W resume_pdf pdf_content x R) in H
        by now rewrite E.
      discriminate.
    + rewrite (@read_resume_ok W resume_pdf pdf_content text' R) in H
        by now rewrite E.
      injection H as <- <-. rewrite E in *. simpl in *. subst t'.
      now exists pdf_content, n.
Qed.

Lemma not_in_pdf_calls (pdf_file : bytes) (n : nat) (model contents : pystr) :
  ~ In (EvGenerateContent model contents) (pdf_calls pdf_file n).
Proof.
  unfold pdf_calls. intros [H|[H|H]]; try discriminate.
  apply repeat_spec in H. discriminate.
Qed.

(** *** Answers *)


(** *** The handler on the context the server started with *)

Variable Rt : Startup.Runtime.








(** X3.  The model is called only for a PDF whose text was extracted, with
    the fixed model name and with the prompt built from that text. *)
Theorem model_called_with_prompt
    company_name job_description resume_pdf model contents :
  In (EvGenerateContent model contents)
     (trace (analyze_resume W company_name job_description resume_pdf)) ->
  content_type resume_pdf = Some pdf_type
  /\ model = MODEL
  /\ exists resume_text,
      outcome (read_resume W resume_pdf) = inr resume_text
      /\ contents = build_prompt W company_name job_description resume_text.
Proof.
  destruct (not_pdf resume_pdf) eqn:N.
  - rewrite (@analyze_resume_not_pdf W company_name job_description resume_pdf N).
    intros [].
  - apply not_pdf_false_iff in N.
    destruct (read_resume W resume_pdf) as [t [x|text]] eqn:R.
    + rewrite (@analyze_resume_stops company_name job_description resume_pdf t x N R).
      destruct (read_resume_trace resume_pdf) as [H|(pdf_file & n & H)];
        rewrite R in H; simpl in H; subst t; simpl.
      * intros [H|[]]. discriminate.
      * intros H. now apply not_in_pdf_calls in H.
    + rewrite (@analyze_resume_ask W company_name job_description resume_pdf t text N R).
      destruct (read_resume_returns _ R) as (pdf_file & n & ->).
      unfold trace at 1. cbn [fst]. intros H. apply in_app_or in H as [H|H].
      * now apply not_in_pdf_calls in H.
      * assert (E : EvGenerateContent model contents
                    = EvGenerateContent MODEL
                        (build_prompt W company_name job_description text)).
        { destruct (ask_model_trace (build_prompt W company_name job_description text))
            as [Ht|[s Ht]]; rewrite Ht in H; simpl in H;
            destruct H as [H|H]; try (now symmetry); try contradiction.
          destruct H as [H|[]]. discriminate. }
        injection E as -> ->. split; [exact N|split; [reflexivity|]].
        exists text. split; reflexivity.
Qed.

(** X4.  When all goes well the parsed value is returned as it is, after
    the calls of X2 in full: the prompt is built from the texts of the pages
    in their order, and the parser is given the cleaned model output. *)
Theorem success_returns_parsed
    company_name job_description resume_pdf pdf_content pages raw v :
  content_type resume_pdf = Some pdf_type ->
  read resume_pdf = inr pdf_content ->
  PdfReader W pdf_content = inr pages ->
  Forall (answers W) pages ->
  generate_content W MODEL
    (build_prompt W company_name job_description (concat (map (contribution W) pages)))
  = inr (Some raw) ->
  json_loads W (clean_response raw) = inr v ->
  analyze_resume W company_name job_description resume_pdf
  = (pdf_calls pdf_content (length pages)
     ++ [EvGenerateContent MODEL
           (build_prompt W company_name job_description
              (concat (map (contribution W) pages)));
         EvJsonLoads (clean_response raw)],
     inr v).
Proof.
  intros Hc Hr Hp Ha Hg Hj.
  pose proof (@extract_ok W pdf_content pages Hp Ha) as He.
  assert (R : read_resume W resume_pdf
              = (pdf_calls pdf_content (length pages),
                 inr (concat (map (contribution W) pages)))).
  { rewrite (@read_resume_ok W resume_pdf pdf_content
               (concat (map (contribution W) pages)) Hr) by now rewrite He.
    now rewrite He. }
  rewrite (@analyze_resume_ask W company_name job_description resume_pdf _ _ Hc R).
  rewrite (@ask_model_parse W _ raw Hg), Hj. reflexivity.
Qed.

(** X5.  A model response without a text part is answered 503, with the
    text of the attribute error; the parser is not called. *)
Theorem no_text_part_gives_503
    company_name job_description resume_pdf t resume_text :
  content_type resume_pdf = Some pdf_type ->
  read_resume W resume_pdf = (t, inr resume_text) ->
  generate_content W MODEL (build_prompt W company_name job_description resume_text)
  = inr None ->
  analyze_resume W company_name job_description resume_pdf
  = (t ++ [EvGenerateContent MODEL
             (build_prompt W company_name job_description resume_text)],
     inl (HTTPException 503 (lit "AI Service Unavailable: " ++ none_has_no_strip))).
Proof.
  intros Hc Hr Hg.
  rewrite (@analyze_resume_ask W company_name job_description resume_pdf t resume_text Hc Hr).
  unfold ask_model, call, bind, try_except, raise. rewrite Hg. reflexivity.
Qed.

(** X6.  When the parser raises anything but a JSON decode error, the
    answer is 503 with the text of that exception. *)
Theorem parser_failure_gives_503
    company_name job_description resume_pdf t resume_text raw e :
  content_type resume_pdf = Some pdf_type ->
  read_resume W resume_pdf = (t, inr resume_text) ->
  generate_content W MODEL (build_prompt W company_name job_description resume_text)
  = inr (Some raw) ->
  json_loads W (clean_response raw) = inl e ->
  (forall msg, e <> JSONDecodeError msg) ->
  outcome (analyze_resume W company_name job_description resume_pdf)
  = inl (HTTPException 503 (lit "AI Service Unavailable: " ++ str W e)).
Proof.
  intros Hc Hr Hg Hj Hne.
  rewrite (@analyze_resume_ask W company_name job_description resume_pdf t resume_text Hc Hr).
  rewrite (@ask_model_parse W _ raw Hg), Hj. unfold outcome. cbn [snd].
  unfold model_handler. destruct e as [c d|m|m]; try reflexivity.
  now destruct (Hne m).
Qed.

(** X7.  When the upload cannot be read, the answer is 500 with the text
    of the error, and the reader is never called. *)
Theorem read_failure_gives_500 company_name job_description resume_pdf e :
  content_type resume_pdf = Some pdf_type ->
  read resume_pdf = inl e ->
  analyze_resume W company_name job_description resume_pdf
  = ([EvRead], inl (HTTPException 500 (lit "Failed to process PDF: " ++ str W e))).
Proof.
  intros Hc Hr.
  apply (@analyze_resume_stops company_name job_description resume_pdf _ _ Hc).
  now apply read_resume_read_raises.
Qed.

End Handler.

End HandlerFacts.

(* ================================================================== *)
(** * Further facts about the extractor *)
(* ================================================================== *)

Module ExtractorFacts.

Import Main Terms HandlerTerms PyFacts MainFacts.

(** ** Splitting a joined text *)

Lemma split_app_sep (sep : N) (a b : pystr) :
  split sep (a ++ sep :: b) = split sep a ++ split sep b.
Proof.
  induction a as [|c a IH]; cbn [app split].
  - now rewrite N.eqb_refl.
  - destruct (c =? sep)%N; rewrite IH; [reflexivity|].
    pose proof (split_nonempty sep a) as Hne.
    destruct (split sep a) as [|f fs]; [congruence|reflexivity].
Qed.

Lemma split_no_sep (sep : N) (s : pystr) : ~ In sep s -> split sep s = [s].
Proof.
  induction s as [|c s IH]; intros H; [reflexivity|]. cbn [split].
  destruct (N.eqb_spec c sep) as [->|Hc]; [now destruct H; left|].
  rewrite IH; [reflexivity|]. intros Hin. apply H. now right.
Qed.

Lemma split_join (sep : N) (l : list pystr) :
  l <> [] -> Forall (fun f => ~ In sep f) l -> split sep (join [sep] l) = l.
Proof.
  induction l as [|x l IH]; intros Hne Hl; [congruence|].
  inversion Hl as [|? ? Hx Hl']; subst.
  destruct l as [|y l].
  - now apply split_no_sep.
  - change (join [sep] (x :: y :: l)) with (x ++ sep :: join [sep] (y :: l)).
    rewrite split_app_sep, split_no_sep by exact Hx.
    rewrite IH; [reflexivity|discriminate|exact Hl'].
Qed.

(** ** The line filter *)

(** A ratio with numerator 0 is not above 0.3, whatever the denominator. *)
Lemma zero_ratio_not_above (total : Z) :
  float_gt (truediv 0 total) float_0_3 = false.
Proof.
  unfold truediv, float_gt.
  change (float_of_int 0) with (S754_zero false).
  destruct (float_of_int total) as [s|s| |s m e]; try destruct s; reflexivity.
Qed.

Lemma count_alnum_le (line : pystr) : (count_alnum line <= total_chars line)%Z.
Proof.
  rewrite <- count_alnum_strip. unfold count_alnum, total_chars, len.
  apply Nat2Z.inj_le, filter_length_le.
Qed.

(** X8.  A line without any letter or digit whose trimmed length is 5 or
    more (a rule of dots, dashes or underscores) is dropped, whatever its
    length. *)
Theorem separator_line_dropped (cleaned_lines : list pystr) (line : pystr) :
  count_alnum line = 0%Z -> (5 <= total_chars line)%Z ->
  clean_step cleaned_lines line = cleaned_lines.
Proof.
  intros Hc Ht. rewrite clean_step_keeps.
  destruct (keeps line) eqn:K; [|reflexivity].
  apply keeps_true_iff in K as [_ [K|K]]; [|lia].
  unfold ratio in K. rewrite Hc, zero_ratio_not_above in K. discriminate.
Qed.

(** X9.  For a line of trimmed length up to 200 the float test is the
    exact one: the line is retained exactly when it is not blank and more
    than three tenths of its trimmed length are letters and digits, or its
    trimmed length is under 5. *)
Theorem retains_iff_exact_ratio (cleaned_lines : list pystr) (line : pystr) :
  (total_chars line <= 200)%Z ->
  (clean_step cleaned_lines line = cleaned_lines ++ [line] <->
   (0 < total_chars line)%Z /\
   (3 * total_chars line < 10 * count_alnum line \/ total_chars line < 5)%Z).
Proof.
  intros Hlen. rewrite clean_step_keeps.
  assert (Hiff : keeps line = true <->
                 (0 < total_chars line)%Z /\
                 (3 * total_chars line < 10 * count_alnum line \/ total_chars line < 5)%Z).
  { rewrite keeps_true_iff. split; intros [Hpos Hor]; (split; [exact Hpos|]).
    - destruct Hor as [Hgt|Hlt]; [left|now right].
      unfold ratio in Hgt. pose proof (count_alnum_le line) as Hle.
      unfold count_alnum, total_chars, len in *.
      rewrite ratio_test_exact_200 in Hgt by lia. now apply Z.ltb_lt.
    - destruct Hor as [Hgt|Hlt]; [left|now right].
      unfold ratio. pose proof (count_alnum_le line) as Hle.
      unfold count_alnum, total_chars, len in *.
      rewrite ratio_test_exact_200 by lia. now apply Z.ltb_lt. }
  rewrite <- Hiff. destruct (keeps line); split; try reflexivity; try discriminate.
  intros H. symmetry in H. now apply snoc_neq in H.
Qed.

Lemma filter_idem (A : Type) (f : A -> bool) (l : list A) :
  filter f (filter f l) = filter f l.
Proof.
  induction l as [|x l IH]; [reflexivity|]. simpl.
  destruct (f x) eqn:E; simpl; [rewrite E|]; now rewrite ?IH.
Qed.

(** X10.  Each line is judged on its own: filtering two runs of lines one
    after the other is filtering them together, and filtering what was
    filtered changes nothing. *)
Theorem clean_lines_compose (lines more : list pystr) :
  clean_lines (lines ++ more) = clean_lines lines ++ clean_lines more
  /\ clean_lines (clean_lines lines) = clean_lines lines.
Proof.
  rewrite !clean_lines_filter. split; [apply filter_app|apply filter_idem].
Qed.

Section Pages.

Variable W : World.

(** X11.  When a page raises, the extractor raises its 400 with the text
    of that error: what the earlier pages gave is dropped, and the later
    pages are not asked. *)
Theorem extract_stops_at_failing_page
    (pdf_file : bytes) (good rest : list (page W)) (bad : page W) (e : pyexn) :
  PdfReader W pdf_file = inr (good ++ bad :: rest) ->
  Forall (answers W) good ->
  extract_text W bad = inl e ->
  extract_text_from_pdf W pdf_file
  = (EvPdfReader pdf_file :: repeat EvExtractText (S (length good)),
     inl (HTTPException 400 (lit "Error reading PDF: " ++ str W e))).
Proof.
  intros Hp Hg Hb. unfold extract_text_from_pdf, call, bind, try_except, raise.
  rewrite Hp, (@for_pages_stops W good rest bad e [] Hg Hb). cbn [app]. now rewrite app_nil_r.
Qed.

Lemma passes_more (p : page W) (pages : list (page W)) (line : pystr) :
  passes W pages line -> passes W (p :: pages) line.
Proof.
  intros [H|[(q & t & Hq & Ht & Hl) H]]; [now left|].
  right. split; [|exact H]. exists q, t. repeat split; auto. now right.
Qed.

Lemma contribution_lines (pages : list (page W)) :
  Forall (passes W pages) (split LF (concat (map (contribution W) pages))).
Proof.
  induction pages as [|p pages IH]; [constructor; [now left|constructor]|].
  cbn [map concat].
  assert (IH' : Forall (passes W (p :: pages))
                  (split LF (concat (map (contribution W) pages)))).
  { eapply Forall_impl; [|exact IH]. intros line. apply passes_more. }
  unfold contribution at 1.
  destruct (extract_text W p) as [e|[[|c s]|]] eqn:E; try exact IH'.
  unfold page_contribution. rewrite <- app_assoc. cbn [nl app].
  rewrite split_app_sep. apply Forall_app. split; [|exact IH'].
  rewrite clean_lines_filter.
  destruct (filter keeps (split LF (c :: s))) as [|x l] eqn:F.
  - constructor; [now left|constructor].
  - rewrite <- F. change [LF] with nl.
    assert (Hin : forall line, In line (filter keeps (split LF (c :: s))) ->
                               In line (split LF (c :: s)) /\ keeps line = true).
    { intros line. apply filter_In. }
    rewrite split_join.
    + apply Forall_forall. intros line Hl. apply Hin in Hl as [Hl Hk].
      right. split; [|now apply keeps_true_iff].
      exists p, (c :: s). repeat split; auto. now left.
    + rewrite F. discriminate.
    + apply Forall_forall. intros line Hl. apply Hin in Hl as [Hl _].
      pose proof (split_fields LF (c :: s)) as Hf.
      rewrite Forall_forall in Hf. now apply Hf.
Qed.

(** X12.  Every line of the text the extractor returns is empty or is a
    line of one of the pages that passes the filter: no line that the
    filter drops comes back through the joins. *)
Theorem extracted_lines_pass_filter
    (pdf_file : bytes) (pages : list (page W)) (out : pystr) :
  PdfReader W pdf_file = inr pages ->
  outcome (extract_text_from_pdf W pdf_file) = inr out ->
  Forall (fun line =>
            line = []
            \/ (exists p t, In p pages /\ extract_text W p = inr (Some t)
                            /\ In line (split LF t))
               /\ (0 < total_chars line)%Z
               /\ (float_gt (ratio line) float_0_3 = true
                   \/ (total_chars line < 5)%Z))
         (split LF out).
Proof.
  intros Hp Hout.
  pose proof (@extract_returns W pdf_file pages out Hp Hout) as Ha.
  rewrite (@extract_ok W pdf_file pages Hp Ha) in Hout.
  injection Hout as <-. apply contribution_lines.
Qed.

End Pages.

End ExtractorFacts.

(* ================================================================== *)
(** * Further facts about the response normalizer *)
(* ================================================================== *)

Module NormalizerFacts.

Import Main Terms HandlerTerms PyFacts MainFacts.

(** ** Parts of a string *)

Lemma part_refl (s : pystr) : part s s.
Proof. exists [], []. now rewrite app_nil_r. Qed.

Lemma part_trans (x y z : pystr) : part x y -> part y z -> part x z.
Proof.
  intros (a & b & ->) (c & d & ->). exists (c ++ a), (b ++ d).
  now rewrite <- !app_assoc.
Qed.

Lemma part_strip (s : pystr) : part (strip s) s.
Proof. destruct (strip_spec s) as (a & b & H & _). now exists a, b. Qed.

Lemma part_slice_from (n : nat) (s : pystr) : part (slice_from n s) s.
Proof.
  exists (firstn n s), []. unfold slice_from.
  now rewrite app_nil_r, firstn_skipn.
Qed.

Lemma part_slice_to_minus (n : nat) (s : pystr) : part (slice_to_minus n s) s.
Proof.
  exists [], (skipn (length s - n) s). unfold slice_to_minus.
  simpl. now rewrite firstn_skipn.
Qed.

(** ** White space around a string *)

Lemma lstrip_padding (ws s : pystr) :
  forallb isspace ws = true -> lstrip (ws ++ s) = lstrip s.
Proof.
  induction ws as [|c ws IH]; [reflexivity|]. simpl.
  intros H. apply andb_true_iff in H as [-> H]. now apply IH.
Qed.

Lemma lstrip_all_space (ws : pystr) : forallb isspace ws = true -> lstrip ws = [].
Proof.
  intros H. rewrite <- (app_nil_r ws). now rewrite lstrip_padding.
Qed.

Lemma rstrip_padding (s ws : pystr) :
  forallb isspace ws = true -> rstrip (s ++ ws) = rstrip s.
Proof.
  intros H. unfold rstrip. rewrite rev_app_distr, lstrip_padding; [reflexivity|].
  rewrite forallb_forall in *. intros c Hc. apply H. now apply in_rev.
Qed.

Lemma lstrip_app_nonblank (s t : pystr) :
  lstrip s <> [] -> lstrip (s ++ t) = lstrip s ++ t.
Proof.
  induction s as [|c s IH]; simpl; [congruence|].
  destruct (isspace c); [exact IH|reflexivity].
Qed.

Lemma lstrip_blank_all_space (s : pystr) : lstrip s = [] -> forallb isspace s = true.
Proof.
  induction s as [|c s IH]; [reflexivity|]. simpl.
  destruct (isspace c); [exact IH|discriminate].
Qed.

Lemma strip_padding (ws1 s ws2 : pystr) :
  forallb isspace ws1 = true -> forallb isspace ws2 = true ->
  strip (ws1 ++ s ++ ws2) = strip s.
Proof.
  intros H1 H2. unfold strip. rewrite lstrip_padding by exact H1.
  destruct (lstrip s) as [|c r] eqn:E.
  - rewrite lstrip_all_space; [reflexivity|].
    rewrite forallb_app, H2, (lstrip_blank_all_space _ E). reflexivity.
  - rewrite lstrip_app_nonblank by (rewrite E; discriminate).
    rewrite E. now apply rstrip_padding.
Qed.

(** What [strip] returns is empty or ends with a character that is not
    white space. *)
Lemma strip_last (s : pystr) :
  strip s = [] \/ exists r d, strip s = r ++ [d] /\ isspace d = false.
Proof.
  unfold strip, rstrip.
  destruct (lstrip_head (rev (lstrip s))) as [->|(c & r & -> & H)]; [now left|].
  right. now exists (rev r), c.
Qed.

(** X13.  What is handed to the parser is a part of the model output, cut
    out at the two ends only, and it has no white space around it. *)
Theorem clean_response_is_part (text : pystr) :
  part (clean_response text) text
  /\ strip (clean_response text) = clean_response text
  /\ (length (clean_response text) <= length text)%nat.
Proof.
  assert (H : part (clean_response text) text).
  { unfold clean_response.
    eapply part_trans; [apply part_strip|].
    eapply part_trans; [|apply part_strip].
    set (t0 := strip text).
    assert (H1 : part (if startswith t0 fence_json then slice_from 7 t0 else t0) t0).
    { destruct (startswith t0 fence_json); [apply part_slice_from|apply part_refl]. }
    set (t1 := if startswith t0 fence_json then slice_from 7 t0 else t0) in *.
    assert (H2 : part (if startswith t1 fence then slice_from 3 t1 else t1) t1).
    { destruct (startswith t1 fence); [apply part_slice_from|apply part_refl]. }
    set (t2 := if startswith t1 fence then slice_from 3 t1 else t1) in *.
    assert (H3 : part (if endswith t2 fence then slice_to_minus 3 t2 else t2) t2).
    { destruct (endswith t2 fence); [apply part_slice_to_minus|apply part_refl]. }
    eapply part_trans; [exact H3|]. eapply part_trans; [exact H2|exact H1]. }
  split; [exact H|split].
  - unfold clean_response. apply strip_idem.
  - destruct H as (a & b & H). rewrite H at 2. rewrite !length_app. lia.
Qed.

(** X14.  White space before and after the model output changes nothing. *)
Theorem padding_ignored (ws1 text ws2 : pystr) :
  forallb isspace ws1 = true -> forallb isspace ws2 = true ->
  clean_response (ws1 ++ text ++ ws2) = clean_response text.
Proof.
  intros H1 H2. unfold clean_response. now rewrite strip_padding.
Qed.

(** X15.  A json fence is removed together with the white space (line
    breaks, as a rule) between its markers and the content: what is left is
    the trimmed content, when that does not start with a fence itself. *)
Theorem padded_json_fence_removed (ws1 s ws2 : pystr) :
  forallb isspace ws1 = true -> forallb isspace ws2 = true ->
  startswith (strip s) fence = false ->
  clean_response (fence_json ++ ws1 ++ s ++ ws2 ++ fence) = strip s.
Proof.
  intros H1 H2 Hs.
  replace (fence_json ++ ws1 ++ s ++ ws2 ++ fence)
    with (fenced (ws1 ++ s ++ ws2))
    by (unfold fenced; now rewrite <- !app_assoc).
  rewrite clean_response_fenced; rewrite strip_padding by assumption;
    [reflexivity|exact Hs].
Qed.

Lemma startswith_json_short (s : pystr) :
  startswith s (lit "json") = false -> startswith (s ++ fence) (lit "json") = false.
Proof.
  change (lit "json") with [106%N; 115%N; 111%N; 110%N]. rewrite fence_eq.
  destruct s as [|c1 [|c2 [|c3 [|c4 r]]]]; cbn [startswith app]; intros H;
    try exact H;
    repeat match goal with
           | |- context [(?a =? ?b)%N] =>
               destruct (N.eqb_spec a b); cbn [andb]; try reflexivity; try discriminate
           end.
Qed.

(** X16.  A plain fence is removed as well: when the content does not
    start with the word json, what is left is the trimmed content. *)
Theorem plain_fence_removed (s : pystr) :
  startswith s (lit "json") = false ->
  clean_response (fence ++ s ++ fence) = strip s.
Proof.
  intros Hs. unfold clean_response.
  assert (Hstrip : strip (fence ++ s ++ fence) = fence ++ s ++ fence).
  { replace (fence ++ s ++ fence)
      with (backtick :: ([backtick; backtick] ++ s ++ [backtick; backtick]) ++ [backtick])
      by (rewrite fence_eq, <- !app_assoc; reflexivity).
    now apply strip_guarded. }
  rewrite Hstrip.
  assert (Hj : startswith (fence ++ s ++ fence) fence_json = false).
  { rewrite fence_json_eq, fence_eq. cbn [startswith app]. rewrite !N.eqb_refl.
    cbn [andb]. rewrite <- fence_eq. now apply startswith_json_short. }
  rewrite Hj, startswith_app.
  change (slice_from 3 (fence ++ s ++ fence)) with (s ++ fence).
  rewrite endswith_app. change 3%nat with (length fence).
  now rewrite slice_to_minus_app.
Qed.

End NormalizerFacts.

(* ================================================================== *)
(** * Further facts about the skill heuristic *)
(* ================================================================== *)

Module SkillFacts.

Import ConvertJobs Terms HandlerTerms PyFacts NormalizerFacts ConvertJobsFacts.

(** ** Strings without a delimiter *)

Lemma one_line_app (a b : pystr) :
  one_line (a ++ b) = true <-> one_line a = true /\ one_line b = true.
Proof. unfold one_line. now rewrite forallb_app, andb_true_iff. Qed.

Lemma one_line_lstrip (s : pystr) : one_line s = true -> one_line (lstrip s) = true.
Proof.
  destruct (lstrip_spec s) as (ws & Hs & _). intros H.
  rewrite Hs in H. now apply one_line_app in H.
Qed.

Lemma one_line_rstrip (s : pystr) : one_line s = true -> one_line (rstrip s) = true.
Proof.
  destruct (rstrip_spec s) as (ws & Hs & _). intros H.
  rewrite Hs in H. now apply one_line_app in H.
Qed.

Lemma one_line_cleaned (line : pystr) :
  one_line line = true -> one_line (cleaned line) = true.
Proof.
  intros H. unfold cleaned, strip.
  apply one_line_lstrip, one_line_rstrip in H.
  unfold strip_marker. destruct (rstrip (lstrip line)) as [|c r]; [reflexivity|].
  destruct (is_marker c); [|exact H].
  apply one_line_lstrip. change (c :: r) with ([c] ++ r) in H.
  now apply one_line_app in H.
Qed.

Lemma one_line_join (sep : pystr) (l : list pystr) :
  one_line sep = true -> Forall (fun f => one_line f = true) l ->
  one_line (join sep l) = true.
Proof.
  intros Hsep. induction 1 as [|x l Hx Hl IH]; [reflexivity|].
  destruct l as [|y l]; [exact Hx|].
  change (join sep (x :: y :: l)) with (x ++ sep ++ join sep (y :: l)).
  rewrite !one_line_app. auto.
Qed.

Lemma Forall_firstn (A : Type) (P : A -> Prop) (n : nat) (l : list A) :
  Forall P l -> Forall P (firstn n l).
Proof.
  intros H. revert n. induction H as [|x l Hx Hl IH]; intros [|n]; simpl;
    constructor; auto.
Qed.

(** The skills of a description: what the loop gathers, cut to 10. *)
Lemma skills_eq (c : N) (s : pystr) :
  extract_skills_heuristic (c :: s) = join (lit ", ") (skills_of (c :: s)).
Proof. unfold extract_skills_heuristic, skills_of. now rewrite skills_loop. Qed.

Lemma skills_of_one_line (description : pystr) :
  Forall (fun skill => one_line skill = true) (skills_of description).
Proof.
  unfold skills_of. apply Forall_firstn, Forall_forall.
  intros f Hf. apply in_map_iff in Hf as (line & <- & Hl).
  apply filter_In in Hl as [Hl _].
  pose proof (re_split_fields description) as H. rewrite Forall_forall in H.
  apply one_line_cleaned. now apply H.
Qed.

(** X17.  The skill string is one line: whatever the description, it holds
    no line feed, carriage return, bullet or middle dot. *)
Theorem skills_on_one_line (description : pystr) :
  one_line (extract_skills_heuristic description) = true.
Proof.
  destruct description as [|c s]; [reflexivity|].
  rewrite skills_eq. apply one_line_join; [reflexivity|].
  apply skills_of_one_line.
Qed.

Lemma cleaned_trimmed (line : pystr) :
  long_enough line = true -> cleaned line <> [] /\ strip (cleaned line) = cleaned line.
Proof.
  unfold long_enough, cleaned, len. rewrite Z.ltb_lt. intros Hlen.
  pose proof (strip_idem line) as Hidem.
  destruct (strip line) as [|c u] eqn:E; [simpl in Hlen; lia|].
  unfold strip_marker. destruct (is_marker c).
  - destruct (strip_last line) as [H|(r & d & H & Hd)]; rewrite E in H; [discriminate|].
    destruct r as [|c' r]; simpl in H.
    + injection H as -> ->. simpl in Hlen. lia.
    + injection H as <- ->. rewrite lstrip_snoc_nonspace by exact Hd. split.
      * now destruct (lstrip r).
      * unfold strip. rewrite <- lstrip_snoc_nonspace by exact Hd.
        rewrite lstrip_idem. rewrite lstrip_snoc_nonspace by exact Hd.
        now apply rstrip_snoc_nonspace.
  - split; [discriminate|exact Hidem].
Qed.

(** X18.  The skill string is the join, with a comma and a space, of at
    most 10 skills, each of them not empty and without white space at
    either end. *)
Theorem skills_are_trimmed (c : N) (s : pystr) :
  extract_skills_heuristic (c :: s) = join (lit ", ") (skills_of (c :: s))
  /\ (length (skills_of (c :: s)) <= 10)%nat
  /\ Forall (fun skill => skill <> [] /\ strip skill = skill) (skills_of (c :: s)).
Proof.
  split; [apply skills_eq|split].
  - apply firstn_le_length.
  - unfold skills_of. apply Forall_firstn, Forall_forall.
    intros f Hf. apply in_map_iff in Hf as (line & <- & Hl).
    apply filter_In in Hl as [_ Hl]. now apply cleaned_trimmed.
Qed.

(** X19.  A description that is not empty but has no field with more than
    3 characters after trimming gives the empty string, not [N/A]. *)
Theorem short_fields_give_empty (c : N) (s : pystr) :
  (forall field, In field (re_split (c :: s)) -> (len (strip field) <= 3)%Z) ->
  extract_skills_heuristic (c :: s) = [].
Proof.
  intros H. rewrite skills_eq. unfold skills_of.
  assert (Hnone : forall l,
             (forall field, In field l -> (len (strip field) <= 3)%Z) ->
             filter long_enough l = []).
  { induction l as [|x l IH]; intros Hl; [reflexivity|]. simpl.
    assert (Hx : long_enough x = false).
    { unfold long_enough. apply Z.ltb_ge. apply Hl. now left. }
    rewrite Hx. apply IH. intros field Hf. apply Hl. now right. }
  now rewrite (Hnone _ H).
Qed.

End SkillFacts.

(* ================================================================== *)
(** * Facts about the script of convert_jobs.py *)
(* ================================================================== *)

Module ConvertScriptFacts.

Import Main ConvertJobs ConvertScript Terms HandlerTerms PyFacts SkillFacts.

Lemma strip_of_cases (value : option pystr) :
  (value = None /\ strip_of value
                   = inl (Exception (lit "'NoneType' object has no attribute 'strip'")))
  \/ exists s, value = Some s /\ strip_of value = inr (strip s).
Proof. destruct value as [s|]; [right; now exists s|now left]. Qed.

Lemma get_none_iff (r : row) (key default : pystr) :
  get r key default = None <-> r key = Some None.
Proof.
  unfold get. destruct (r key) as [[s|]|]; split; congruence.
Qed.

(** X20.  A row converts exactly when none of the three columns the script
    reads is [None] for it (the line is not shorter than the header up to
    them); otherwise the attribute error of [None.strip()] is raised. *)
Theorem convert_row_succeeds_iff (r : row) :
  ((exists entry, convert_row r = inr entry) <->
   r (lit "Job Type") <> Some None /\ r (lit "Company") <> Some None
   /\ r (lit "Description") <> Some None)
  /\ (forall e, convert_row r = inl e ->
      e = Exception (lit "'NoneType' object has no attribute 'strip'")).
Proof.
  unfold convert_row.
  destruct (strip_of_cases (get r (lit "Job Type") (lit "N/A")))
    as [[H1 ->]|(s1 & H1 & ->)];
    [apply get_none_iff in H1
    |destruct (strip_of_cases (get r (lit "Company") (lit "N/A")))
       as [[H2 ->]|(s2 & H2 & ->)];
     [apply get_none_iff in H2
     |destruct (strip_of_cases (get r (lit "Description") []))
        as [[H3 ->]|(s3 & H3 & ->)];
      [apply get_none_iff in H3|]]].
  - split; [split|]; [intros [entry H]; discriminate|tauto|congruence].
  - split; [split|]; [intros [entry H]; discriminate|tauto|congruence].
  - split; [split|]; [intros [entry H]; discriminate|tauto|congruence].
  - split; [split|]; [|now eexists|discriminate].
    intros _. unfold get in H1, H2, H3.
    repeat split; intros H; rewrite H in *; discriminate.
Qed.

Lemma or_default_filled (r : row) (key s : pystr) :
  get r key (lit "N/A") = Some s ->
  filled_from r key (or_default (strip s) (lit "N/A")).
Proof.
  unfold get, filled_from. intros H.
  destruct (strip s) as [|c u] eqn:E; [now left|].
  destruct (r key) as [[s'|]|]; try discriminate.
  - injection H as ->. right. exists s. rewrite E. repeat split. discriminate.
  - injection H as <-. now left.
Qed.

Lemma filled_trimmed (r : row) (key field : pystr) :
  filled_from r key field -> field <> [] /\ strip field = field.
Proof.
  intros [->|(s & _ & -> & H)]; [split; [discriminate|reflexivity]|].
  split; [exact H|apply strip_idem].
Qed.

(** X21.  In every entry the title and the company are [N/A] or the trimmed,
    non-blank field of the row; so they are never empty and carry no white
    space around them; and the skills are on one line. *)
Theorem entries_are_filled (r : row) (entry : job_entry) :
  convert_row r = inr entry ->
  filled_from r (lit "Job Type") (job_title entry)
  /\ filled_from r (lit "Company") (company_name entry)
  /\ job_title entry <> [] /\ strip (job_title entry) = job_title entry
  /\ company_name entry <> [] /\ strip (company_name entry) = company_name entry
  /\ one_line (required_skills entry) = true.
Proof.
  unfold convert_row.
  destruct (get r (lit "Job Type") (lit "N/A")) as [s1|] eqn:G1; [|discriminate].
  destruct (get r (lit "Company") (lit "N/A")) as [s2|] eqn:G2; [|discriminate].
  destruct (get r (lit "Description") []) as [s3|] eqn:G3; [|discriminate].
  cbn [strip_of]. intros H. injection H as <-. cbn [job_title company_name required_skills].
  pose proof (or_default_filled r _ G1) as F1.
  pose proof (or_default_filled r _ G2) as F2.
  destruct (filled_trimmed F1) as [N1 T1]. destruct (filled_trimmed F2) as [N2 T2].
  repeat split; auto.
  destruct (strip s3) as [|c s]; [reflexivity|].
  rewrite skills_eq. apply one_line_join; [reflexivity|apply skills_of_one_line].
Qed.

Lemma for_rows_returns (rows : list (pyexn + row)) :
  forall jobs_data out,
    for_rows rows jobs_data = inr out ->
    exists rs entries,
      rows = map inr rs /\ out = jobs_data ++ entries
      /\ Forall2 (fun r entry => convert_row r = inr entry) rs entries.
Proof.
  induction rows as [|[e|r] rows IH]; intros jobs_data out H; simpl in H.
  - injection H as <-. exists [], []. rewrite app_nil_r. repeat split. constructor.
  - discriminate.
  - destruct (convert_row r) as [e|entry] eqn:C; [discriminate|].
    destruct (IH _ _ H) as (rs & entries & -> & -> & HF).
    exists (r :: rs), (entry :: entries). rewrite <- app_assoc.
    repeat split. now constructor.
Qed.

Lemma for_rows_stops (rows : list (pyexn + row)) :
  Exists stops rows -> forall jobs_data, exists e, for_rows rows jobs_data = inl e.
Proof.
  induction rows as [|[e|r] rows IH]; intros H jobs_data; simpl.
  - inversion H.
  - now exists e.
  - destruct (convert_row r) as [e|entry] eqn:C; [now exists e|].
    apply IH. inversion H as [? ? Hs|? ? Hs]; subst; [|assumption].
    destruct Hs as [e He]. congruence.
Qed.

(** X22.  What is dumped holds one entry per row of the CSV file, in the
    order of the rows, each the conversion of its row; and then the run is
    the emptying of the JSON file, the dump and the success line. *)
Theorem dump_is_all_rows (F : Files) (jobs_data : list job_entry) :
  In (Dumped jobs_data) (main F) ->
  (exists rs,
      open_csv F = inr (map inr rs)
      /\ Forall2 (fun r entry => convert_row r = inr entry) rs jobs_data)
  /\ main F = [Truncated; Dumped jobs_data; Printed converted].
Proof.
  unfold main, failed.
  destruct (open_csv F) as [e|rows]; [intros [H|[]]; discriminate|].
  destruct (for_rows rows []) as [e|out] eqn:R; [intros [H|[]]; discriminate|].
  destruct (open_json F) as [e|]; [intros [H|[]]; discriminate|].
  destruct (json_dump F out) as [e|].
  - intros [H|[H|[]]]; discriminate.
  - intros [H|[H|[H|[]]]]; try discriminate. injection H as <-.
    destruct (for_rows_returns _ _ R) as (rs & entries & -> & -> & HF).
    split; [|reflexivity]. now exists rs.
Qed.

(** X23.  When the reader raises at a row or a row does not convert, the
    run is one error line: nothing is dumped, and the JSON file of an
    earlier run is not even emptied. *)
Theorem failed_row_writes_nothing (F : Files) (rows : list (pyexn + row)) :
  open_csv F = inr rows ->
  Exists stops rows ->
  exists e, main F = [Printed (lit "Error converting CSV to JSON: " ++ str_of F e)].
Proof.
  intros Ho Hs. unfold main, failed. rewrite Ho.
  destruct (for_rows_stops Hs []) as [e ->]. now exists e.
Qed.

End ConvertScriptFacts.

(* ================================================================== *)
(** * Facts about backend/check_key.py *)
(* ================================================================== *)

Module CheckKeyFacts.

Import Main CheckKey HandlerTerms.

Lemma for_models_calls (E : Env) (models : list pystr) :
  filter is_call (for_models E models)
  = map (fun model => Called model (lit "Hello")) models.
Proof.
  induction models as [|model models IH]; [reflexivity|].
  cbn [for_models filter is_call map].
  destruct (generate_content E model (lit "Hello")); cbn [is_call]; now rewrite IH.
Qed.

Lemma for_models_length (E : Env) (models : list pystr) :
  length (for_models E models) = (3 * length models)%nat.
Proof.
  induction models as [|model models IH]; [reflexivity|].
  cbn [for_models length]. rewrite IH. lia.
Qed.

(** X24.  With a key in the environment and a client that is built, every
    model of the list is called once, in the order of the list and with the
    same content, whichever of the calls fail; the script prints its header
    and two lines per model and ends without an exception. *)
Theorem every_model_tested (E : Env) (key : pystr) :
  Client E = None ->
  api_key E = Some key ->
  snd (main E) = None
  /\ filter is_call (fst (main E))
     = map (fun model => Called model (lit "Hello")) models_to_test
  /\ length (filter (fun x => negb (is_call x)) (fst (main E))) = 7%nat.
Proof.
  intros Hc Hk. unfold main. rewrite Hc, Hk. cbn [fst snd].
  split; [reflexivity|split].
  - cbn [filter is_call]. apply for_models_calls.
  - pose proof (for_models_calls E models_to_test) as Hcalls.
    pose proof (for_models_length E models_to_test) as Hlen.
    pose proof (filter_length is_call (for_models E models_to_test)) as Hsum.
    cbn [filter is_call negb length].
    rewrite Hcalls, length_map in Hsum. rewrite Hlen in Hsum.
    change (length models_to_test) with 3%nat in Hsum.
    set (n := length (filter (fun x => negb (is_call x)) (for_models E models_to_test))) in *.
    lia.
Qed.

End CheckKeyFacts.

(* ================================================================== *)
(** * The further facts at work in the sample world *)
(* ================================================================== *)

Module MoreSampleFacts.

Import Main Terms HandlerTerms Sample MoreSample.
Import PyFacts MainFacts HandlerFacts ExtractorFacts NormalizerFacts SkillFacts.

(** ** The handler *)


(** The same request after a start without the context file: the context
    is the empty list, and the request is answered. *)
Example missing_context_file :
  Startup.load_jobs_context missing_file
  = ([lit "Warning: Could not load jobs_context.json: [Errno 2] No such file or directory: 'jobs_context.json'"],
     Startup.JsonArray (world answers_object) [])
  /\ outcome (Startup.analyze_resume_on runtime
                (snd (Startup.load_jobs_context missing_file)) acme job pdf_upload)
     = inr (lit "{}").
Proof. split; reflexivity. Qed.

(** The status the framework answers with after a start on an object. *)
Example object_context_status :
  http_status (outcome (Startup.analyze_resume_on runtime
                          (snd (Startup.load_jobs_context object_file))
                          acme job pdf_upload)) = 500%Z
  /\ trace (Startup.analyze_resume_on runtime
              (snd (Startup.load_jobs_context object_file)) acme job pdf_upload)
     = resume_calls.
Proof. split; reflexivity. Qed.

(** X3 at the resume: the one call of the model carries its prompt. *)
Lemma model_called_with_prompt_witness :
  content_type pdf_upload = Some pdf_type
  /\ MODEL = MODEL
  /\ exists text,
      outcome (read_resume (world answers_object) pdf_upload) = inr text
      /\ build_prompt (world answers_object) acme job resume_text
         = build_prompt (world answers_object) acme job text.
Proof.
  apply (@model_called_with_prompt (world answers_object) acme job pdf_upload
           MODEL (build_prompt (world answers_object) acme job resume_text)).
  vm_compute. right. right. right. right. right. left. reflexivity.
Defined.

(** X4 at the resume. *)
Lemma success_returns_parsed_witness :
  analyze_resume (world answers_object) acme job pdf_upload
  = (pdf_calls resume_file 3
     ++ [EvGenerateContent MODEL
           (build_prompt (world answers_object) acme job
              (concat (map (contribution (world answers_object))
                           [inr (Some resume_page); inr None; inr (Some rule_page)])));
         EvJsonLoads (clean_response (lit "{}"))],
     inr (lit "{}")).
Proof.
  apply (@success_returns_parsed (world answers_object) acme job pdf_upload resume_file
           [inr (Some resume_page); inr None; inr (Some rule_page)] (lit "{}") (lit "{}")).
  - reflexivity.
  - reflexivity.
  - reflexivity.
  - repeat (constructor; [eexists; reflexivity|]). constructor.
  - reflexivity.
  - reflexivity.
Defined.

(** X5 at a response without a text part. *)
Lemma no_text_part_gives_503_witness :
  analyze_resume (world no_text_part) acme job pdf_upload
  = (resume_calls
     ++ [EvGenerateContent MODEL (build_prompt (world no_text_part) acme job resume_text)],
     inl (HTTPException 503 (lit "AI Service Unavailable: " ++ none_has_no_strip))).
Proof.
  apply (@no_text_part_gives_503 (world no_text_part) acme job pdf_upload
           resume_calls resume_text).
  - reflexivity.
  - vm_compute. reflexivity.
  - reflexivity.
Defined.

(** X6 at a parser that gives up on deep nesting. *)
Lemma parser_failure_gives_503_witness :
  outcome (analyze_resume deep_world acme job pdf_upload)
  = inl (HTTPException 503
           (lit "AI Service Unavailable: "
            ++ str deep_world (Exception (lit "maximum recursion depth exceeded")))).
Proof.
  apply (@parser_failure_gives_503 deep_world acme job pdf_upload
           resume_calls resume_text (lit "[[[[]]]]")
           (Exception (lit "maximum recursion depth exceeded"))).
  - reflexivity.
  - vm_compute. reflexivity.
  - reflexivity.
  - reflexivity.
  - discriminate.
Defined.

(** X7 at a closed upload. *)
Lemma read_failure_gives_500_witness :
  analyze_resume (world answers_object) acme job closed_upload
  = ([EvRead],
     inl (HTTPException 500
            (lit "Failed to process PDF: "
             ++ str (world answers_object)
                  (Exception (lit "I/O operation on closed file"))))).
Proof.
  apply (@read_failure_gives_500 (world answers_object) acme job closed_upload
           (Exception (lit "I/O operation on closed file"))); reflexivity.
Defined.

(** ** The extractor *)

(** X8 at a rule of dots. *)
Lemma separator_line_dropped_witness :
  clean_step [lit "John Doe"] (lit "........") = [lit "John Doe"].
Proof.
  apply (@separator_line_dropped [lit "John Doe"] (lit "........")).
  - reflexivity.
  - vm_compute. discriminate.
Defined.

(** X9 at a name: 7 of its 8 characters are letters. *)
Lemma retains_iff_exact_ratio_witness :
  clean_step [] (lit "John Doe") = [] ++ [lit "John Doe"] <->
  (0 < total_chars (lit "John Doe"))%Z /\
  (3 * total_chars (lit "John Doe") < 10 * count_alnum (lit "John Doe")
   \/ total_chars (lit "John Doe") < 5)%Z.
Proof.
  apply (@retains_iff_exact_ratio [] (lit "John Doe")).
  vm_compute. discriminate.
Defined.

(** X11 at the file whose second page cannot be read. *)
Lemma extract_stops_at_failing_page_witness :
  extract_text_from_pdf torn_world resume_file
  = (EvPdfReader resume_file :: repeat EvExtractText 2,
     inl (HTTPException 400
            (lit "Error reading PDF: "
             ++ str torn_world (Exception (lit "Invalid object in page 2"))))).
Proof.
  apply (@extract_stops_at_failing_page torn_world resume_file
           [inr (Some resume_page)] [inr None]
           (inl (Exception (lit "Invalid object in page 2")))
           (Exception (lit "Invalid object in page 2"))).
  - reflexivity.
  - constructor; [eexists; reflexivity|constructor].
  - reflexivity.
Defined.

(** X12 at the resume: the lines of the text it gives. *)
Lemma extracted_lines_pass_filter_witness :
  Forall (passes (world answers_object)
            [inr (Some resume_page); inr None; inr (Some rule_page)])
         (split LF resume_text).
Proof.
  apply (@extracted_lines_pass_filter (world answers_object) resume_file
           [inr (Some resume_page); inr None; inr (Some rule_page)] resume_text).
  - reflexivity.
  - vm_compute. reflexivity.
Defined.

(** ** The normalizer *)

(** X14 at an object between blank lines. *)
Lemma padding_ignored_witness :
  clean_response ((nl ++ nl) ++ lit "{}" ++ lit "  ") = clean_response (lit "{}").
Proof.
  apply (@padding_ignored (nl ++ nl) (lit "{}") (lit "  ")); reflexivity.
Defined.

(** X15 at the usual shape of a fenced answer. *)
Lemma padded_json_fence_removed_witness :
  clean_response (fence_json ++ nl ++ lit "{}" ++ nl ++ fence) = strip (lit "{}").
Proof.
  apply (@padded_json_fence_removed nl (lit "{}") nl); reflexivity.
Defined.

(** X16 at a plain fence. *)
Lemma plain_fence_removed_witness :
  clean_response (fence ++ (nl ++ lit "{}" ++ nl) ++ fence) = strip (nl ++ lit "{}" ++ nl).
Proof.
  apply (@plain_fence_removed (nl ++ lit "{}" ++ nl)). reflexivity.
Defined.

(** ** The converter *)

(** X19 at a description of two short words. *)
Lemma short_fields_give_empty_witness :
  ConvertJobs.extract_skills_heuristic (lit "C++" ++ nl ++ lit "Go") = [].
Proof.
  apply (@short_fields_give_empty 67%N (lit "++" ++ nl ++ lit "Go")).
  intros field [<-|[<-|[]]]; vm_compute; discriminate.
Defined.

(** X21 at the full row and at the sparse one. *)
Lemma entries_are_filled_witness :
  (filled_from full_row (lit "Job Type") (lit "Backend Engineer")
   /\ filled_from full_row (lit "Company") (lit "Acme Corp")
   /\ lit "Backend Engineer" <> [] /\ strip (lit "Backend Engineer") = lit "Backend Engineer"
   /\ lit "Acme Corp" <> [] /\ strip (lit "Acme Corp") = lit "Acme Corp"
   /\ one_line (lit "Python and APIs") = true)
  /\ ConvertScript.convert_row sparse_row = inr sparse_entry.
Proof.
  split; [|reflexivity].
  apply (@ConvertScriptFacts.entries_are_filled full_row full_entry). reflexivity.
Defined.

(** X22 at a file of two rows. *)
Lemma dump_is_all_rows_witness :
  (exists rs,
      ConvertScript.open_csv good_files = inr (map inr rs)
      /\ Forall2 (fun r entry => ConvertScript.convert_row r = inr entry)
                 rs [full_entry; sparse_entry])
  /\ ConvertScript.main good_files
     = [ConvertScript.Truncated; ConvertScript.Dumped [full_entry; sparse_entry];
        ConvertScript.Printed ConvertScript.converted].
Proof.
  apply (@ConvertScriptFacts.dump_is_all_rows good_files [full_entry; sparse_entry]).
  right. left. reflexivity.
Defined.

(** X23 at a file whose second line is shorter than the header. *)
Lemma failed_row_writes_nothing_witness :
  exists e,
    ConvertScript.main short_line_files
    = [ConvertScript.Printed
         (lit "Error converting CSV to JSON: " ++ ConvertScript.str_of short_line_files e)].
Proof.
  apply (@ConvertScriptFacts.failed_row_writes_nothing short_line_files
           [inr full_row; inr short_row; inr sparse_row]).
  - reflexivity.
  - apply Exists_cons_tl, Exists_cons_hd. eexists. reflexivity.
Defined.

(** ** The key checker *)

(** X24 at an environment in which the second model is not available. *)
Lemma every_model_tested_witness :
  snd (CheckKey.main one_model_down) = None
  /\ filter is_call (fst (CheckKey.main one_model_down))
     = map (fun model => CheckKey.Called model (lit "Hello")) CheckKey.models_to_test
  /\ length (filter (fun x => negb (is_call x)) (fst (CheckKey.main one_model_down))) = 7%nat.
Proof.
  apply (@CheckKeyFacts.every_model_tested one_model_down (lit "AIzaSyD-0123456789abcdef"));
    reflexivity.
Defined.

Example check_key_lines :
  fst (CheckKey.main one_model_down)
  = [CheckKey.Printed (lit "Testing API Key: AIzaSyD-01...");
     CheckKey.Printed (lit "Testing model: gemini-2.5-flash");
     CheckKey.Called (lit "gemini-2.5-flash") (lit "Hello");
     CheckKey.Printed (lit "SUCCESS: gemini-2.5-flash works!");
     CheckKey.Printed (lit "Testing model: gemini-2.0-flash-exp");
     CheckKey.Called (lit "gemini-2.0-flash-exp") (lit "Hello");
     CheckKey.Printed (lit "FAILED: gemini-2.0-flash-exp - 404 NOT_FOUND");
     CheckKey.Printed (lit "Testing model: gemini-2.0-flash-lite");
     CheckKey.Called (lit "gemini-2.0-flash-lite") (lit "Hello");
     CheckKey.Printed (lit "SUCCESS: gemini-2.0-flash-lite works!")].
Proof. vm_compute. reflexivity. Qed.

End MoreSampleFacts.
